(** * Translation bot (app.py): shallow embedding and verified properties

    The program is one Flask module: a language heuristic, a translation
    client around one HTTP call, a bot activity handler, and the
    [/api/messages] endpoint.  Python strings are sequences of Unicode code
    points; exceptions are explicit results; the effects of a request
    (activities sent, calls made, log lines) are recorded in a chronological
    event trace. *)

From Stdlib Require Import String Ascii ZArith NArith List Bool Lia.
From stdpp Require Import base option list gmap strings.

Set Warnings "-register-all".
Local Open Scope string_scope.
Local Open Scope list_scope.

(** ** Python strings *)

(** A [str] is a sequence of code points. *)
Abbreviation codepoint := N (only parsing).
Abbreviation pystr := (list N) (only parsing).

(** An ASCII literal of the source, as code points. *)
Definition lit (s : string) : pystr :=
  map N_of_ascii (list_ascii_of_string s).

(** [Py_UNICODE_ISSPACE]: the code points removed by [str.strip()]. *)
Definition is_space (c : codepoint) : bool :=
  ((0x09 <=? c) && (c <=? 0x0d) || (0x1c <=? c) && (c <=? 0x20)
   || (c =? 0x85) || (c =? 0xa0) || (c =? 0x1680)
   || (0x2000 <=? c) && (c <=? 0x200a)
   || (c =? 0x2028) || (c =? 0x2029) || (c =? 0x202f) || (c =? 0x205f)
   || (c =? 0x3000))%N.

Fixpoint lstrip (s : pystr) : pystr :=
  match s with
  | c :: s' => if is_space c then lstrip s' else s
  | [] => []
  end.

Definition rstrip (s : pystr) : pystr := rev (lstrip (rev s)).

(** [s.strip()] *)
Definition py_strip (s : pystr) : pystr := rstrip (lstrip s).

(** Lower-casing of an ASCII code point. *)
Definition ascii_lower (c : codepoint) : codepoint :=
  if ((65 <=? c) && (c <=? 90))%N then (c + 32)%N else c.

(** [sub in s] on strings: [sub] occurs as a contiguous run of [s]. *)
Fixpoint starts_with (sub s : pystr) : bool :=
  match sub, s with
  | [], _ => true
  | _ :: _, [] => false
  | a :: sub', b :: s' => (a =? b)%N && starts_with sub' s'
  end.

Fixpoint str_contains (sub s : pystr) : bool :=
  starts_with sub s ||
  match s with
  | [] => false
  | _ :: s' => str_contains sub s'
  end.

(** [x in [a, b, c]] on a list of strings. *)
Definition str_in_list (x : pystr) (l : list pystr) : bool :=
  bool_decide (x ∈ l).

(** Truthiness of an optional string: [None] and [''] are falsy. *)
Definition truthy_str (o : option pystr) : bool :=
  match o with
  | Some (_ :: _) => true
  | _ => false
  end.

(** ** Python values obtained from JSON *)

Inductive value : Type :=
| PyNone
| PyBool (b : bool)
| PyInt (n : Z)
| PyFloat (digits : pystr)
| PyStr (s : pystr)
| PyList (items : list value)
| PyDict (fields : list (pystr * value)).

(** The name of a value's class, as it appears in interpreter errors. *)
Definition type_name (v : value) : string :=
  match v with
  | PyNone => "NoneType"
  | PyBool _ => "bool"
  | PyInt _ => "int"
  | PyFloat _ => "float"
  | PyStr _ => "str"
  | PyList _ => "list"
  | PyDict _ => "dict"
  end.

(** Dictionary lookup; the first binding of a key is the live one. *)
Fixpoint dict_lookup (k : pystr) (d : list (pystr * value)) : option value :=
  match d with
  | [] => None
  | (k', v) :: d' => if decide (k = k') then Some v else dict_lookup k d'
  end.

(** ** Exceptions *)

Inductive type_error : Type :=
| NotSubscriptable (ty : string)
| BadIndex (container index : string).

Inductive exn : Type :=
| AttributeError (ty attr : string)
| KeyError (key : value)
| IndexError (container : string)
| TypeError (t : type_error)
| HTTPError (status : Z) (reason url : pystr)
| LibraryError (cls : string) (msg : pystr).

Inductive pyresult (A : Type) : Type :=
| Return (a : A)
| Raise (e : exn).
Arguments Return {A} a.
Arguments Raise {A} e.

(** What the interpreter decides outside the repository: Unicode
    lower-casing beyond ASCII (context dependent, so it sees the whole
    string and the position), the text of [str(e)], and the text an f-string
    gives a value that is not a [str]. *)
Record Runtime : Type := {
  lower_nonascii : pystr -> nat -> pystr;
  str_of_exn : exn -> pystr;
  str_of_nonstr : value -> pystr
}.

(** [s.lower()] *)
Definition py_lower (rt : Runtime) (s : pystr) : pystr :=
  concat (imap (fun i c => if (c <? 128)%N then [ascii_lower c]
                           else lower_nonascii rt s i) s).

(** [f"{v}"] *)
Definition format_value (rt : Runtime) (v : value) : pystr :=
  match v with
  | PyStr s => s
  | _ => str_of_nonstr rt v
  end.

(** [v[k]] for an integer or string subscript. *)
Inductive subscript : Type :=
| IxInt (i : Z)
| IxStr (k : pystr).

Definition seq_index {A} (l : list A) (i : Z) : option A :=
  let n := Z.of_nat (length l) in
  if (0 <=? i)%Z then l !! Z.to_nat i
  else if (0 <=? i + n)%Z then l !! Z.to_nat (i + n)
  else None.

Definition getitem (v : value) (k : subscript) : pyresult value :=
  match v, k with
  | PyList l, IxInt i =>
      match seq_index l i with
      | Some x => Return x
      | None => Raise (IndexError "list")
      end
  | PyList _, IxStr _ => Raise (TypeError (BadIndex "list" "str"))
  | PyDict d, IxStr s =>
      match dict_lookup s d with
      | Some x => Return x
      | None => Raise (KeyError (PyStr s))
      end
  | PyDict _, IxInt i => Raise (KeyError (PyInt i))
  | PyStr s, IxInt i =>
      match seq_index s i with
      | Some c => Return (PyStr [c])
      | None => Raise (IndexError "string")
      end
  | PyStr _, IxStr _ => Raise (TypeError (BadIndex "string" "str"))
  | _, _ => Raise (TypeError (NotSubscriptable (type_name v)))
  end.

(** [v.get(k, default)]: only a dict has the method. *)
Definition method_get (v : value) (k : pystr) (default : value) : pyresult value :=
  match v with
  | PyDict d =>
      match dict_lookup k d with
      | Some x => Return x
      | None => Return default
      end
  | _ => Raise (AttributeError (type_name v) "get")
  end.

(** ** Activities, HTTP messages and the event trace *)

Record ChannelAccount : Type := {
  account_id : option pystr
}.

(** The fields of a Bot Framework activity the program reads or sets. *)
Record Activity : Type := {
  activity_type : pystr;
  activity_text : option pystr;
  activity_recipient : option ChannelAccount;
  activity_members_added : list ChannelAccount
}.

Record TurnContext : Type := {
  activity : Activity
}.

(** [MessageFactory.text(s)] *)
Definition MessageFactory_text (s : pystr) : Activity :=
  {| activity_type := lit "message";
     activity_text := Some s;
     activity_recipient := None;
     activity_members_added := [] |}.

(** [Activity(type=ActivityTypes.typing)] *)
Definition typing_activity : Activity :=
  {| activity_type := lit "typing";
     activity_text := None;
     activity_recipient := None;
     activity_members_added := [] |}.

(** The arguments of [translator_client.post(url, params=, headers=, json=)]. *)
Record HttpRequest : Type := {
  req_url : pystr;
  req_params : list (pystr * pystr);
  req_headers : list (pystr * pystr);
  req_json : value
}.

(** A [requests] response: its status line and what [.json()] gives. *)
Record Response : Type := {
  status_code : Z;
  reason : pystr;
  url : pystr;
  json : pyresult value
}.

(** The return value of [adapter.process_activity] when it is not [None]. *)
Record InvokeResponse : Type := {
  ir_body : value;
  ir_status : Z
}.

Inductive event : Type :=
| SendActivity (a : Activity)
| CallDetect (text : pystr)
| CallTranslate (text target : pystr)
| HttpPost (r : HttpRequest)
| LogError (msg : pystr)
| ReadJson
| Deserialize (b : value)
| CallHandler (name : string) (a : Activity).

(** ** Computations: a trace and a result or an exception *)

Definition M (A : Type) : Type := list event -> pyresult A * list event.

Definition ret {A} (a : A) : M A := fun tr => (Return a, tr).

Definition raise {A} (e : exn) : M A := fun tr => (Raise e, tr).

Definition bind {A B} (m : M A) (f : A -> M B) : M B :=
  fun tr =>
    match m tr with
    | (Return a, tr') => f a tr'
    | (Raise e, tr') => (Raise e, tr')
    end.

Definition emit (ev : event) : M unit := fun tr => (Return tt, tr ++ [ev]).

Definition lift {A} (r : pyresult A) : M A := fun tr => (r, tr).

(** [try: m except Exception as e: h e] *)
Definition try_except {A} (m : M A) (h : exn -> M A) : M A :=
  fun tr =>
    match m tr with
    | (Return a, tr') => (Return a, tr')
    | (Raise e, tr') => h e tr'
    end.

Declare Scope py_scope.
Delimit Scope py_scope with py.
Notation "'let*' x := m 'in' k" := (bind m (fun x => k))
  (at level 10, x name, m at level 100, k at level 200) : py_scope.
Notation "m ;; k" := (bind m (fun _ => k))
  (at level 100, k at level 200, right associativity) : py_scope.
Local Open Scope py_scope.

(** ** The world outside the module *)

(** [requests.Session]: what a POST comes back with, or the transport
    error it raises. *)
Record Session : Type := {
  post : HttpRequest -> pyresult Response
}.

Record TranslationBot : Type := {
  translator_client : option Session
}.

(** [TranslationBot._create_translator_client]: a session, or [None] when
    creating one raises. *)
Definition _create_translator_client (new_session : pyresult Session)
  : option Session :=
  match new_session with
  | Return s => Some s
  | Raise _ => None
  end.

(** Module-level configuration and the collaborators the module calls: the
    channel a turn context sends through, the adapter (authentication and
    its synchronous response) and the SDK's activity deserializer. *)
Record World : Type := {
  TRANSLATOR_KEY : option pystr;
  TRANSLATOR_ENDPOINT : pystr;
  TRANSLATOR_REGION : pystr;
  bot : TranslationBot;
  send_outcome : list event -> Activity -> option exn;
  authenticate : Activity -> pystr -> option exn;
  invoke_response : Activity -> list event -> option InvokeResponse;
  deserialize : value -> pyresult Activity
}.

(** A Flask request: its headers and what [request.json] evaluates to. *)
Record Request : Type := {
  headers : gmap string pystr;
  request_json : pyresult value
}.

(** What a view returns to Flask. *)
Inductive response_body : Type :=
| JsonBody (v : value)
| TextBody (s : pystr).

Definition jsonify (v : value) : response_body := JsonBody v.

(** ** The program *)

Section Program.

Variable rt : Runtime.
Variable w : World.

(** [turn_context.send_activity(a)] *)
Definition send_activity (turn_context : TurnContext) (a : Activity) : M unit :=
  fun tr =>
    (match send_outcome w tr a with
     | None => Return tt
     | Some e => Raise e
     end, tr ++ [SendActivity a]).

(** [client.post(url, params=params, headers=headers, json=body)] *)
Definition session_post (client : Session) (r : HttpRequest) : M Response :=
  emit (HttpPost r) ;; lift (post client r).

(** [response.raise_for_status()]: [requests] raises [HTTPError] for a
    status from 400 to 599 and returns otherwise. *)
Definition raise_for_status (r : Response) : M unit :=
  if ((400 <=? status_code r) && (status_code r <? 600))%Z
  then raise (HTTPError (status_code r) (reason r) (url r))
  else ret tt.

Definition not_configured : pystr := lit "Translation service not configured".

Definition failure_prefix : pystr := lit "Sorry, translation failed: ".

(** The f-string of the success path. *)
Definition translated_message (detected_language : value)
  (target_language : pystr) (translated_text : value) : pystr :=
  lit "**Translated** (" ++ format_value rt detected_language
  ++ [32; 226; 8224; 8217; 32]%N ++ target_language
  ++ lit "):" ++ [10%N] ++ format_value rt translated_text.

(** The body of the [try] of [translate_text]. *)
Definition translate_request (client : Session) (key : pystr)
  (text target_language : pystr) : M pystr :=
  let url := TRANSLATOR_ENDPOINT w ++ lit "/translate" in
  let headers :=
    [ (lit "Ocp-Apim-Subscription-Key", key);
      (lit "Ocp-Apim-Subscription-Region", TRANSLATOR_REGION w);
      (lit "Content-Type", lit "application/json") ] in
  let params := [ (lit "api-version", lit "3.0"); (lit "to", target_language) ] in
  let body := PyList [ PyDict [ (lit "text", PyStr text) ] ] in
  let* response :=
    session_post client
      {| req_url := url; req_params := params;
         req_headers := headers; req_json := body |} in
  raise_for_status response ;;
  let* result := lift (json response) in
  let* first := lift (getitem result (IxInt 0)) in
  let* translations := lift (getitem first (IxStr (lit "translations"))) in
  let* translation := lift (getitem translations (IxInt 0)) in
  let* translated_text := lift (getitem translation (IxStr (lit "text"))) in
  let* first' := lift (getitem result (IxInt 0)) in
  let* detected :=
    lift (method_get first' (lit "detectedLanguage") (PyDict [])) in
  let* detected_language :=
    lift (method_get detected (lit "language") (PyStr (lit "unknown"))) in
  ret (translated_message detected_language target_language translated_text).

(** [TranslationBot.translate_text] *)
Definition translate_text (text target_language : pystr) : M pystr :=
  emit (CallTranslate text target_language) ;;
  match translator_client (bot w), TRANSLATOR_KEY w with
  | Some client, Some (c :: key) =>
      try_except
        (translate_request client (c :: key) text target_language)
        (fun e =>
           emit (LogError (lit "Translation error: " ++ str_of_exn rt e)) ;;
           ret (failure_prefix ++ str_of_exn rt e))
  | _, _ => ret not_configured
  end.

(** ['\u0d80' <= char <= '\u0dff'] *)
Definition is_sinhala (char : codepoint) : bool :=
  ((0xd80 <=? char) && (char <=? 0xdff))%N.

(** [TranslationBot._detect_language_and_get_target] *)
Definition _detect_language_and_get_target (text : pystr) : pystr :=
  let sinhala_chars := existsb is_sinhala text in
  if sinhala_chars then lit "en" else lit "si".

Definition prompt_text : pystr := lit "Please send some text to translate!".

Definition help_keywords : list pystr :=
  [ lit "/help"; lit "help"; lit "/translate help" ].

Definition help_text : pystr :=
  [10%N]
  ++ lit "**Translation Bot Help**"
  ++ [10; 10]%N
  ++ lit "Simply type any text in English or Sinhala, and I'll translate it for you!"
  ++ [10; 10]%N
  ++ lit "**Examples:**"
  ++ [10%N]
  ++ lit "- Type: "
  ++ [34%N]
  ++ lit "Hello, how are you?"
  ++ [34%N]
  ++ lit " "
  ++ [226; 8224; 8217]%N
  ++ lit " Gets translated to Sinhala"
  ++ [10%N]
  ++ lit "- Type: "
  ++ [34; 224; 182; 8221; 224; 182; 182; 224; 182; 167]%N
  ++ lit " "
  ++ [224; 182; 353; 224; 183; 339; 224; 183; 8222; 224; 183; 339; 224; 182; 184; 224; 182; 175]%N
  ++ lit "?"
  ++ [34%N]
  ++ lit " "
  ++ [226; 8224; 8217]%N
  ++ lit " Gets translated to English"
  ++ [10; 10]%N
  ++ lit "**Commands:**"
  ++ [10%N]
  ++ lit "- `/help` or `help` - Show this help message"
  ++ [10%N]
  ++ lit "- Just type any text - Auto-detects language and translates"
  ++ [10; 10]%N
  ++ lit "**Supported Languages:**"
  ++ [10%N]
  ++ lit "- English "
  ++ [226; 8224; 8221]%N
  ++ lit " Sinhala"
  ++ [10%N]
  ++ lit "            ".

Definition welcome_text : pystr :=
  [10; 240; 376; 8216; 8249]%N
  ++ lit " **Welcome to Translation Bot!**"
  ++ [10; 10]%N
  ++ lit "I can translate between English and Sinhala instantly!"
  ++ [10; 10]%N
  ++ lit "Just type any text and I'll automatically detect the language and translate it for you."
  ++ [10; 10]%N
  ++ lit "Type `/help` for more information."
  ++ [10%N]
  ++ lit "        ".

(** [turn_context.activity.text.strip()]: [None] has no [strip]. *)
Definition text_strip (a : Activity) : pyresult pystr :=
  match activity_text a with
  | Some t => Return (py_strip t)
  | None => Raise (AttributeError "NoneType" "strip")
  end.

(** [TranslationBot.on_message_activity] *)
Definition on_message_activity (turn_context : TurnContext) : M unit :=
  emit (CallHandler "on_message_activity" (activity turn_context)) ;;
  let* user_message := lift (text_strip (activity turn_context)) in
  match user_message with
  | [] => send_activity turn_context (MessageFactory_text prompt_text)
  | _ :: _ =>
      if str_in_list (py_lower rt user_message) help_keywords then
        send_activity turn_context (MessageFactory_text help_text)
      else
        let* target_language :=
          (emit (CallDetect user_message) ;;
           ret (_detect_language_and_get_target user_message)) in
        send_activity turn_context typing_activity ;;
        let* translated_text := translate_text user_message target_language in
        send_activity turn_context (MessageFactory_text translated_text)
  end.

(** [for x in l: body x] *)
Fixpoint for_each {A} (l : list A) (body : A -> M unit) : M unit :=
  match l with
  | [] => ret tt
  | x :: l' => body x ;; for_each l' body
  end.

(** [turn_context.activity.recipient.id] *)
Definition recipient_id (a : Activity) : pyresult (option pystr) :=
  match activity_recipient a with
  | Some r => Return (account_id r)
  | None => Raise (AttributeError "NoneType" "id")
  end.

(** [TranslationBot.on_members_added_activity] *)
Definition on_members_added_activity (members_added : list ChannelAccount)
  (turn_context : TurnContext) : M unit :=
  emit (CallHandler "on_members_added_activity" (activity turn_context)) ;;
  for_each members_added (fun member =>
    let* rid := lift (recipient_id (activity turn_context)) in
    if bool_decide (account_id member <> rid) then
      send_activity turn_context (MessageFactory_text welcome_text)
    else ret tt).

(** [adapter.process_activity(activity, auth_header, logic)]: authenticate,
    run [logic] on a turn context for the activity, let its exceptions
    through, and hand back the synchronous response if there is one. *)
Definition process_activity (a : Activity) (auth_header : pystr)
  (logic : TurnContext -> M unit) : M (option InvokeResponse) :=
  match authenticate w a auth_header with
  | Some e => raise e
  | None =>
      logic {| activity := a |} ;;
      fun tr => (Return (invoke_response w a tr), tr)
  end.

(** [request.headers[name]] *)
Definition headers_getitem (request : Request) (name : string)
  (environ_key : string) : pyresult pystr :=
  match headers request !! name with
  | Some v => Return v
  | None => Raise (KeyError (PyStr (lit environ_key)))
  end.

Definition error_body (msg : pystr) : response_body :=
  jsonify (PyDict [ (lit "error", PyStr msg) ]).

(** [messages], the view of [POST /api/messages]: [Return] is the response
    it gives Flask, [Raise] an exception that leaves the view. *)
Definition messages (request : Request) : M (response_body * Z) :=
  let* content_type :=
    lift (headers_getitem request "Content-Type" "CONTENT_TYPE") in
  if str_contains (lit "application/json") content_type then
    let* body := (emit ReadJson ;; lift (request_json request)) in
    let* activity := (emit (Deserialize body) ;; lift (deserialize w body)) in
    let auth_header :=
      match headers request !! "Authorization" with
      | Some v => v
      | None => []
      end in
    let aux_func := fun turn_context => on_message_activity turn_context in
    try_except
      (let* response := process_activity activity auth_header aux_func in
       match response with
       | Some r => ret (jsonify (ir_body r), ir_status r)
       | None => ret (TextBody [], 200%Z)
       end)
      (fun e =>
         emit (LogError (lit "Error processing activity: " ++ str_of_exn rt e)) ;;
         ret (error_body (str_of_exn rt e), 500%Z))
  else
    ret (error_body (lit "Invalid content type"), 415%Z).

End Program.

(** ** Reading a trace *)

(** An event that reaches the translation client: a call of
    [translate_text] or the HTTP request it makes. *)
Definition is_translation_event (ev : event) : bool :=
  match ev with
  | CallTranslate _ _ | HttpPost _ => true
  | _ => false
  end.

Definition is_detect_event (ev : event) : bool :=
  match ev with
  | CallDetect _ => true
  | _ => false
  end.

(** The activities sent, in order. *)
Fixpoint sent_activities (tr : list event) : list Activity :=
  match tr with
  | [] => []
  | SendActivity a :: tr' => a :: sent_activities tr'
  | _ :: tr' => sent_activities tr'
  end.

(** The result of a send as the channel decides it. *)
Definition send_result (w : World) (tr : list event) (a : Activity)
  : pyresult unit :=
  match send_outcome w tr a with
  | None => Return tt
  | Some e => Raise e
  end.

(** The [Authorization] header the endpoint hands the adapter: the empty
    string when the request has none. *)
Definition auth_header_of (request : Request) : pystr :=
  match headers request !! "Authorization" with
  | Some v => v
  | None => []
  end.

(** A computation only ever appends to the trace. *)
Definition extends {A} (m : M A) : Prop :=
  forall tr, exists new, snd (m tr) = tr ++ new.

(** The members a members-added activity is to welcome: those whose id is
    not the recipient's. *)
Definition newcomers (r : ChannelAccount) (members : list ChannelAccount)
  : list ChannelAccount :=
  filter (fun m => account_id m <> account_id r) members.

(** [sub] occurs in [s] as a contiguous run. *)
Definition occurs_in (sub s : pystr) : Prop :=
  exists pre post, s = pre ++ sub ++ post.

(** Case-insensitive equality of two strings: equal once lower-cased. *)
Definition caseless_eq (rt : Runtime) (a b : pystr) : Prop :=
  py_lower rt a = py_lower rt b.

(** A string of white space only (the empty string included). *)
Definition blank (s : pystr) : Prop :=
  forall c, In c s -> is_space c = true.

(** A code point of the Sinhala block, U+0D80 to U+0DFF inclusive. *)
Definition in_sinhala_block (c : codepoint) : Prop :=
  (3456 <= c /\ c <= 3583)%N.

Definition has_sinhala (text : pystr) : Prop :=
  exists c, In c text /\ in_sinhala_block c.

(** A reply body the client can read: a list whose first item is a dict
    with a list under [translations], itself starting with a dict that has
    a [text], and whose [detectedLanguage], when there is one, is a dict. *)
Inductive well_formed_body : value -> Prop :=
| wf_body fields rest tfields trest text :
    dict_lookup (lit "translations") fields
      = Some (PyList (PyDict tfields :: trest)) ->
    dict_lookup (lit "text") tfields = Some text ->
    (dict_lookup (lit "detectedLanguage") fields = None \/
     exists d, dict_lookup (lit "detectedLanguage") fields = Some (PyDict d)) ->
    well_formed_body (PyList (PyDict fields :: rest)).

(** A status [raise_for_status] rejects: 4xx or 5xx. *)
Definition error_status (s : Z) : Prop := (400 <= s < 600)%Z.

(** The request [translate_text] posts for a text and a target. *)
Definition translate_http_request (w : World) (key text target_language : pystr)
  : HttpRequest :=
  {| req_url := TRANSLATOR_ENDPOINT w ++ lit "/translate";
     req_params := [ (lit "api-version", lit "3.0"); (lit "to", target_language) ];
     req_headers :=
       [ (lit "Ocp-Apim-Subscription-Key", key);
         (lit "Ocp-Apim-Subscription-Region", TRANSLATOR_REGION w);
         (lit "Content-Type", lit "application/json") ];
     req_json := PyList [ PyDict [ (lit "text", PyStr text) ] ] |}.

(** Sequencing of results without a trace. *)
Definition rbind {A B} (r : pyresult A) (f : A -> pyresult B) : pyresult B :=
  match r with
  | Return a => f a
  | Raise e => Raise e
  end.

(** What the client makes of a decoded reply body: the subscripts and
    [get] calls of [translate_text] in their order, then the f-string. *)
Definition read_reply (rt : Runtime) (target_language : pystr) (result : value)
  : pyresult pystr :=
  rbind (getitem result (IxInt 0)) (fun first =>
  rbind (getitem first (IxStr (lit "translations"))) (fun translations =>
  rbind (getitem translations (IxInt 0)) (fun translation =>
  rbind (getitem translation (IxStr (lit "text"))) (fun translated_text =>
  rbind (getitem result (IxInt 0)) (fun first' =>
  rbind (method_get first' (lit "detectedLanguage") (PyDict [])) (fun detected =>
  rbind (method_get detected (lit "language") (PyStr (lit "unknown")))
    (fun detected_language =>
  Return (translated_message rt detected_language target_language
            translated_text)))))))).

(** ** Sample instances *)

Definition quoted (s : pystr) : pystr := [39%N] ++ s ++ [39%N].

(** A runtime that leaves code points beyond ASCII as they are when
    lower-casing and words exceptions the way CPython does. *)
Definition sample_str_of_exn (e : exn) : pystr :=
  match e with
  | AttributeError ty attr =>
      quoted (lit ty) ++ lit " object has no attribute " ++ quoted (lit attr)
  | KeyError (PyStr k) => quoted k
  | KeyError _ => lit "0"
  | IndexError c => lit c ++ lit " index out of range"
  | TypeError (NotSubscriptable ty) =>
      quoted (lit ty) ++ lit " object is not subscriptable"
  | TypeError (BadIndex c i) =>
      lit c ++ lit " indices must be integers, not " ++ quoted (lit i)
  | HTTPError _ r u => r ++ lit " for url: " ++ u
  | LibraryError _ msg => msg
  end.

Definition sample_runtime : Runtime :=
  {| lower_nonascii := fun s i =>
       match s !! i with Some c => [c] | None => [] end;
     str_of_exn := sample_str_of_exn;
     str_of_nonstr := fun v => lit (type_name v) |}.

Definition account_of (v : value) : ChannelAccount :=
  match v with
  | PyDict d =>
      match dict_lookup (lit "id") d with
      | Some (PyStr s) => {| account_id := Some s |}
      | _ => {| account_id := None |}
      end
  | _ => {| account_id := None |}
  end.

(** A deserializer reading [type], [text], [recipient] and [membersAdded]
    off a JSON object. *)
Definition sample_deserialize (v : value) : pyresult Activity :=
  match v with
  | PyDict d =>
      Return
        {| activity_type :=
             match dict_lookup (lit "type") d with
             | Some (PyStr s) => s
             | _ => []
             end;
           activity_text :=
             match dict_lookup (lit "text") d with
             | Some (PyStr s) => Some s
             | _ => None
             end;
           activity_recipient :=
             match dict_lookup (lit "recipient") d with
             | Some r => Some (account_of r)
             | None => None
             end;
           activity_members_added :=
             match dict_lookup (lit "membersAdded") d with
             | Some (PyList l) => map account_of l
             | _ => []
             end |}
  | _ => Raise (LibraryError "DeserializationError" (lit "not an object"))
  end.

(** The reply body of the translation example of the specification, for a
    translated text [x]. *)
Definition example_reply (x : pystr) : value :=
  PyList
    [ PyDict
        [ (lit "translations", PyList [ PyDict [ (lit "text", PyStr x) ] ]);
          (lit "detectedLanguage",
           PyDict [ (lit "language", PyStr (lit "en")) ]) ] ].

(** A session answering every request with one status and one body. *)
Definition answering (code : Z) (b : pyresult value) : Session :=
  {| post := fun r =>
       Return {| status_code := code; reason := lit "reason";
                 url := req_url r; json := b |} |}.

(** A session on which every request fails in transport. *)
Definition unreachable : Session :=
  {| post := fun _ =>
       Raise (LibraryError "ConnectionError" (lit "connection timed out")) |}.

(** A configured world around a session: sends succeed, authentication
    passes, there is no synchronous response. *)
Definition sample_world (client : option Session) (key : option pystr) : World :=
  {| TRANSLATOR_KEY := key;
     TRANSLATOR_ENDPOINT := lit "https://api.cognitive.microsofttranslator.com";
     TRANSLATOR_REGION := lit "eastus";
     bot := {| translator_client := client |};
     send_outcome := fun _ _ => None;
     authenticate := fun _ _ => None;
     invoke_response := fun _ _ => None;
     deserialize := sample_deserialize |}.

(** The same world with an adapter that rejects every request. *)
Definition unauthorized_world : World :=
  {| TRANSLATOR_KEY := None;
     TRANSLATOR_ENDPOINT := lit "https://api.cognitive.microsofttranslator.com";
     TRANSLATOR_REGION := lit "eastus";
     bot := {| translator_client := None |};
     send_outcome := fun _ _ => None;
     authenticate := fun _ _ =>
       Some (LibraryError "PermissionError" (lit "Unauthorized"));
     invoke_response := fun _ _ => None;
     deserialize := sample_deserialize |}.

Definition json_request (content_type : option pystr) (b : value) : Request :=
  {| headers :=
       match content_type with
       | Some ct => {[ "Content-Type" := ct ]}
       | None => ∅
       end;
     request_json := Return b |}.

(** A message activity carrying [text], as JSON. *)
Definition message_json (text : pystr) : value :=
  PyDict [ (lit "type", PyStr (lit "message")); (lit "text", PyStr text);
           (lit "recipient", PyDict [ (lit "id", PyStr (lit "bot")) ]) ].

(** A conversation update announcing one new member, as Teams sends it:
    no [text]. *)
Definition members_added_json : value :=
  PyDict [ (lit "type", PyStr (lit "conversationUpdate"));
           (lit "recipient", PyDict [ (lit "id", PyStr (lit "bot")) ]);
           (lit "membersAdded",
            PyList [ PyDict [ (lit "id", PyStr (lit "user-1")) ] ]) ].

(** The same update with a [text] on it. *)
Definition members_added_with_text_json : value :=
  PyDict [ (lit "type", PyStr (lit "conversationUpdate"));
           (lit "text", PyStr (lit "hello"));
           (lit "recipient", PyDict [ (lit "id", PyStr (lit "bot")) ]);
           (lit "membersAdded",
            PyList [ PyDict [ (lit "id", PyStr (lit "user-1")) ] ]) ].

(** The activity that update deserializes to. *)
Definition members_added_activity : Activity :=
  {| activity_type := lit "conversationUpdate";
     activity_text := None;
     activity_recipient := Some {| account_id := Some (lit "bot") |};
     activity_members_added := [ {| account_id := Some (lit "user-1") |} ] |}.

(** The message activity [message_json text] deserializes to. *)
Definition message_activity (text : pystr) : Activity :=
  {| activity_type := lit "message";
     activity_text := Some text;
     activity_recipient := Some {| account_id := Some (lit "bot") |};
     activity_members_added := [] |}.

(** ** Module configuration and start-up *)

(** [os.environ.get(name, default)]: the default only when the variable is
    not set at all. *)
Definition environ_get (environ : gmap string pystr) (name : string)
  (default : pystr) : pystr :=
  match environ !! name with
  | Some v => v
  | None => default
  end.

(** The module-level assignments read from the environment when the
    module is loaded; the collaborators of [w] stay as they are. *)
Definition load_settings (environ : gmap string pystr) (w : World) : World :=
  {| TRANSLATOR_KEY := environ !! "AZURE_TRANSLATOR_KEY";
     TRANSLATOR_ENDPOINT :=
       environ_get environ "AZURE_TRANSLATOR_ENDPOINT"
         (lit "https://api.cognitive.microsofttranslator.com");
     TRANSLATOR_REGION := environ_get environ "AZURE_TRANSLATOR_REGION" (lit "eastus");
     bot := bot w;
     send_outcome := send_outcome w;
     authenticate := authenticate w;
     invoke_response := invoke_response w;
     deserialize := deserialize w |}.

Definition BOT_APP_ID (environ : gmap string pystr) : pystr :=
  environ_get environ "BOT_APP_ID" [].

Definition BOT_APP_PASSWORD (environ : gmap string pystr) : pystr :=
  environ_get environ "BOT_APP_PASSWORD" [].

Inductive log_level : Type := ERROR | INFO.

(** What the [__main__] block ends in: the listener started on a host and
    port, or nothing started. *)
Inductive startup : Type :=
| Serving (host : pystr) (port : Z)
| NotStarted.

Definition required_vars : list string := [ "AZURE_TRANSLATOR_KEY" ].

(** [[var for var in required_vars if not os.environ.get(var)]] *)
Definition missing_vars (environ : gmap string pystr) : list string :=
  List.filter (fun var => negb (truthy_str (environ !! var))) required_vars.

(** [f"{names}"] for a list of plain names: each in single quotes, comma
    separated, in brackets. *)
Fixpoint join_names (names : list string) : pystr :=
  match names with
  | [] => []
  | [n] => quoted (lit n)
  | n :: rest => quoted (lit n) ++ lit ", " ++ join_names rest
  end.

Definition repr_names (names : list string) : pystr :=
  lit "[" ++ join_names names ++ lit "]".

(** The [if __name__ == "__main__"] block; [py_int] is [int] on a string. *)
Definition main (py_int : pystr -> pyresult Z) (environ : gmap string pystr)
  : pyresult startup * list (log_level * pystr) :=
  match missing_vars environ with
  | _ :: _ =>
      (Return NotStarted,
       [ (ERROR, lit "Missing required environment variables: "
                 ++ repr_names (missing_vars environ));
         (INFO, lit "Please set the following environment variables:");
         (INFO, lit "- AZURE_TRANSLATOR_KEY: Your Azure Translator API key");
         (INFO, lit "- BOT_APP_ID: Your bot's application ID (optional for local testing)");
         (INFO, lit "- BOT_APP_PASSWORD: Your bot's application password (optional for local testing)") ])
  | [] =>
      let started := [ (INFO, lit "Starting Translation Bot...") ] in
      match environ !! "PORT" with
      | None => (Return (Serving (lit "0.0.0.0") 3978%Z), started)
      | Some p =>
          match py_int p with
          | Return port => (Return (Serving (lit "0.0.0.0") port), started)
          | Raise e => (Raise e, started)
          end
      end
  end.

(** ** More ways to read a trace *)

Definition is_http_event (ev : event) : bool :=
  match ev with
  | HttpPost _ => true
  | _ => false
  end.

Definition is_handler_event (ev : event) : bool :=
  match ev with
  | CallHandler _ _ => true
  | _ => false
  end.

(** The client and key [translate_text] goes on with, when both are set. *)
Definition configured (w : World) : option (Session * pystr) :=
  match translator_client (bot w), TRANSLATOR_KEY w with
  | Some client, Some (c :: key) => Some (client, c :: key)
  | _, _ => None
  end.

(** What the [try] of [translate_text] comes to for a request: the reply
    read off the response, or the exception raised on the way. *)
Definition upstream (rt : Runtime) (client : Session) (r : HttpRequest)
  (target_language : pystr) : pyresult pystr :=
  match post client r with
  | Raise e => Raise e
  | Return resp =>
      if ((400 <=? status_code resp) && (status_code resp <? 600))%Z
      then Raise (HTTPError (status_code resp) (reason resp) (url resp))
      else rbind (json resp) (read_reply rt target_language)
  end.

(** The language a reply names: [detectedLanguage.language], or
    ['unknown'] when either level is missing. *)
Definition named_language (fields : list (pystr * value)) : option value :=
  match dict_lookup (lit "detectedLanguage") fields with
  | None => Some (PyStr (lit "unknown"))
  | Some (PyDict d) =>
      match dict_lookup (lit "language") d with
      | Some l => Some l
      | None => Some (PyStr (lit "unknown"))
      end
  | Some _ => None
  end.

(** A trimmed text: not empty, no white space at either end. *)
Definition trimmed (s : pystr) : Prop :=
  s <> [] /\
  (forall c, head s = Some c -> is_space c = false) /\
  (forall c, last s = Some c -> is_space c = false).

(** A channel that delivers every activity. *)
Definition delivers (w : World) : Prop :=
  forall tr a, send_outcome w tr a = None.

(** A world whose channel is down: every send raises. *)
Definition offline_world (client : option Session) (key : option pystr) : World :=
  {| TRANSLATOR_KEY := key;
     TRANSLATOR_ENDPOINT := lit "https://api.cognitive.microsofttranslator.com";
     TRANSLATOR_REGION := lit "eastus";
     bot := {| translator_client := client |};
     send_outcome := fun _ _ =>
       Some (LibraryError "ConnectionError" (lit "channel unreachable"));
     authenticate := fun _ _ => None;
     invoke_response := fun _ _ => None;
     deserialize := sample_deserialize |}.

(** A reply with two translations and no detected language. *)
Definition reply_without_language (x y : pystr) : value :=
  PyList
    [ PyDict
        [ (lit "translations",
           PyList [ PyDict [ (lit "text", PyStr x) ];
                    PyDict [ (lit "text", PyStr y) ] ]) ];
      PyDict [] ].

(** A sample [int]: it reads strings of ASCII digits and rejects the rest. *)
Definition digits_int (s : pystr) : pyresult Z :=
  match s with
  | [] => Raise (LibraryError "ValueError" (lit "invalid literal for int()"))
  | _ =>
      if forallb (fun c => (48 <=? c) && (c <=? 57))%N s
      then Return (Z.of_N (fold_left (fun acc c => acc * 10 + (c - 48))%N s 0%N))
      else Raise (LibraryError "ValueError" (lit "invalid literal for int()"))
  end.

(** * Properties *)

(** ** Strings *)

Lemma starts_with_spec (sub s : pystr) :
  starts_with sub s = true <-> exists post, s = sub ++ post.
Proof.
  revert s; induction sub as [|a sub IH]; intros s; simpl.
  - split; [intros _; exists s; reflexivity | reflexivity].
  - destruct s as [|b s]; simpl.
    + split; [discriminate | intros [post H]; discriminate].
    + rewrite andb_true_iff, N.eqb_eq, IH. split.
      * intros [-> [post ->]]. exists post. reflexivity.
      * intros [post H]. injection H as -> ->. split; [reflexivity | eauto].
Qed.

Lemma str_contains_spec (sub s : pystr) :
  str_contains sub s = true <-> occurs_in sub s.
Proof.
  unfold occurs_in. induction s as [|b s IH]; simpl.
  - rewrite orb_false_r, starts_with_spec. split.
    + intros [post H]. exists [], post. exact H.
    + intros [pre [post H]]. destruct pre; [eauto | discriminate].
  - rewrite orb_true_iff, starts_with_spec, IH. split.
    + intros [[post H] | [pre [post H]]].
      * exists [], post. exact H.
      * exists (b :: pre), post. simpl. congruence.
    + intros [[|c pre] [post H]].
      * left. exists post. exact H.
      * right. injection H as -> ->. eauto.
Qed.

Lemma lstrip_blank (s : pystr) : blank s -> lstrip s = [].
Proof.
  induction s as [|c s IH]; intros Hb; simpl; [reflexivity|].
  rewrite (Hb c (or_introl eq_refl)).
  apply IH. intros d Hd. apply Hb. right. exact Hd.
Qed.

Lemma py_strip_blank (s : pystr) : blank s -> py_strip s = [].
Proof. intros Hb. unfold py_strip. rewrite (lstrip_blank s Hb). reflexivity. Qed.

Lemma py_lower_nil (rt : Runtime) : py_lower rt [] = [].
Proof. reflexivity. Qed.

(** On ASCII text lower-casing does not depend on the runtime. *)
Lemma py_lower_ascii (rt : Runtime) (s : pystr) :
  (forall c, In c s -> (c < 128)%N) ->
  py_lower rt s = map ascii_lower s.
Proof.
  intros Hs. unfold py_lower.
  rewrite (imap_ext _ (const (fun c => [ascii_lower c])) s).
  - rewrite (imap_const (fun c => [ascii_lower c]) s). clear Hs.
    induction s as [|c s IH]; [reflexivity |].
    simpl. rewrite <- IH. reflexivity.
  - intros i c Hi. simpl.
    assert (Hc : (c < 128)%N).
    { apply Hs, list_elem_of_In, list_elem_of_lookup. eauto. }
    apply N.ltb_lt in Hc. rewrite Hc. reflexivity.
Qed.

Example py_lower_samples (rt : Runtime) :
  py_lower rt (lit "/Translate HELP") = lit "/translate help" /\
  py_lower rt (lit "HeLp") = lit "help" /\
  py_strip ([0xa0; 9]%N ++ lit " /help " ++ [10; 0x3000]%N) = lit "/help" /\
  py_strip (lit "a  b") = lit "a  b".
Proof. repeat split. Qed.

Lemma help_keywords_lower (rt : Runtime) (k : pystr) :
  k = lit "/help" \/ k = lit "help" \/ k = lit "/translate help" ->
  py_lower rt k = k /\ k <> [] /\ str_in_list k help_keywords = true.
Proof.
  intros [-> | [-> | ->]]; (split; [reflexivity | split; [discriminate | reflexivity]]).
Qed.

Lemma existsb_is_sinhala (text : pystr) :
  existsb is_sinhala text = true <-> has_sinhala text.
Proof.
  unfold has_sinhala, in_sinhala_block. rewrite existsb_exists.
  split; intros [c [Hin Hc]]; exists c; split; try exact Hin;
    unfold is_sinhala in *.
  - apply andb_true_iff in Hc as [H1 H2].
    apply N.leb_le in H1, H2. split; assumption.
  - destruct Hc as [H1 H2]. apply andb_true_iff.
    split; apply N.leb_le; assumption.
Qed.

(** ** The language heuristic *)

(** C2: for every string the heuristic answers ['en'] when some code point
    lies in U+0D80..U+0DFF and ['si'] when none does; being a total function
    with these two results only, it never fails. *)
Theorem C2_detect_language_and_get_target (text : pystr) :
  (has_sinhala text -> _detect_language_and_get_target text = lit "en") /\
  (~ has_sinhala text -> _detect_language_and_get_target text = lit "si") /\
  (_detect_language_and_get_target text = lit "en" \/
   _detect_language_and_get_target text = lit "si").
Proof.
  unfold _detect_language_and_get_target.
  pose proof (existsb_is_sinhala text) as Hspec.
  destruct (existsb is_sinhala text); repeat split.
  - intros H. exfalso. apply H, Hspec. reflexivity.
  - left. reflexivity.
  - intros H. apply Hspec in H. discriminate.
  - right. reflexivity.
Qed.

(** The heuristic at a text with the Sinhala letter U+0D85 in it, and at
    an English one. *)
Lemma C2_detect_language_witness :
  _detect_language_and_get_target (lit "hi " ++ [0xd85%N]) = lit "en" /\
  _detect_language_and_get_target (lit "Hello") = lit "si".
Proof.
  split.
  - apply (proj1 (C2_detect_language_and_get_target (lit "hi " ++ [0xd85%N]))).
    exists 0xd85%N. split; [vm_compute; tauto | unfold in_sinhala_block; lia].
  - apply (proj1 (proj2 (C2_detect_language_and_get_target (lit "Hello")))).
    intros [c [Hin [H1 H2]]]. vm_compute in Hin.
    repeat (destruct Hin as [<- | Hin]; [lia |]). exact Hin.
Defined.

(** The bounds are inclusive and tight. *)
Example detect_block_edges :
  _detect_language_and_get_target [0xd80%N] = lit "en" /\
  _detect_language_and_get_target [0xdff%N] = lit "en" /\
  _detect_language_and_get_target [0xd7f%N] = lit "si" /\
  _detect_language_and_get_target [0xe00%N] = lit "si" /\
  _detect_language_and_get_target [] = lit "si".
Proof. repeat split. Qed.

(** ** The trace is append-only *)

Lemma extends_ret {A} (a : A) : extends (ret a).
Proof. intros tr. exists []. simpl. rewrite app_nil_r. reflexivity. Qed.

Lemma extends_raise {A} (e : exn) : extends (@raise A e).
Proof. intros tr. exists []. simpl. rewrite app_nil_r. reflexivity. Qed.

Lemma extends_lift {A} (r : pyresult A) : extends (lift r).
Proof. intros tr. exists []. simpl. rewrite app_nil_r. reflexivity. Qed.

Lemma extends_emit (ev : event) : extends (emit ev).
Proof. intros tr. exists [ev]. reflexivity. Qed.

Lemma extends_bind {A B} (m : M A) (f : A -> M B) :
  extends m -> (forall a, extends (f a)) -> extends (bind m f).
Proof.
  intros Hm Hf tr. unfold bind. destruct (Hm tr) as [n1 H1].
  destruct (m tr) as [[a | e] tr']; simpl in H1; subst tr'.
  - destruct (Hf a (tr ++ n1)) as [n2 H2]. exists (n1 ++ n2).
    rewrite H2, app_assoc. reflexivity.
  - exists n1. reflexivity.
Qed.

Lemma extends_try_except {A} (m : M A) (h : exn -> M A) :
  extends m -> (forall e, extends (h e)) -> extends (try_except m h).
Proof.
  intros Hm Hh tr. unfold try_except. destruct (Hm tr) as [n1 H1].
  destruct (m tr) as [[a | e] tr']; simpl in H1; subst tr'.
  - exists n1. reflexivity.
  - destruct (Hh e (tr ++ n1)) as [n2 H2]. exists (n1 ++ n2).
    rewrite H2, app_assoc. reflexivity.
Qed.

Lemma extends_send_activity (w : World) (ctx : TurnContext) (a : Activity) :
  extends (send_activity w ctx a).
Proof. intros tr. exists [SendActivity a]. reflexivity. Qed.

Lemma extends_for_each {A} (l : list A) (body : A -> M unit) :
  (forall x, extends (body x)) -> extends (for_each l body).
Proof.
  intros Hb. induction l as [|x l IH]; simpl.
  - apply extends_ret.
  - apply extends_bind; [apply Hb | intros _; exact IH].
Qed.

Create HintDb trace.
#[local] Hint Resolve extends_ret extends_raise extends_lift extends_emit
  extends_send_activity : trace.

Ltac extends_step :=
  first [ apply extends_bind; [| intros ?]
        | apply extends_try_except; [| intros ?]
        | apply extends_for_each; intros ?
        | solve [auto with trace] ].

Lemma extends_translate_text (rt : Runtime) (w : World) (text target : pystr) :
  extends (translate_text rt w text target).
Proof.
  unfold translate_text, translate_request, session_post, raise_for_status.
  apply extends_bind; [auto with trace | intros _].
  destruct (translator_client (bot w)) as [client|]; [| auto with trace].
  destruct (TRANSLATOR_KEY w) as [[|c key]|]; auto with trace.
  repeat extends_step.
  destruct (_ && _); auto with trace.
Qed.

Lemma extends_on_message_activity (rt : Runtime) (w : World) (ctx : TurnContext) :
  extends (on_message_activity rt w ctx).
Proof.
  unfold on_message_activity.
  apply extends_bind; [auto with trace | intros _].
  apply extends_bind; [auto with trace | intros [|c m]]; [auto with trace |].
  destruct (str_in_list _ _); [auto with trace |].
  repeat first [ apply extends_translate_text | extends_step ].
Qed.

Lemma extends_on_members_added_activity (w : World)
  (members : list ChannelAccount) (ctx : TurnContext) :
  extends (on_members_added_activity w members ctx).
Proof.
  unfold on_members_added_activity.
  apply extends_bind; [auto with trace | intros _].
  apply extends_for_each. intros member.
  apply extends_bind; [auto with trace | intros rid].
  destruct (bool_decide _); auto with trace.
Qed.

Lemma extends_process_activity (w : World) (a : Activity) (auth : pystr)
  (logic : TurnContext -> M unit) :
  (forall ctx, extends (logic ctx)) ->
  extends (process_activity w a auth logic).
Proof.
  intros Hl. unfold process_activity.
  destruct (authenticate w a auth); [auto with trace |].
  apply extends_bind; [apply Hl | intros _].
  intros tr. exists []. simpl. rewrite app_nil_r. reflexivity.
Qed.

Lemma extends_messages (rt : Runtime) (w : World) (request : Request) :
  extends (messages rt w request).
Proof.
  unfold messages.
  apply extends_bind; [auto with trace | intros ct].
  destruct (str_contains _ ct); [| auto with trace].
  repeat extends_step.
  - apply extends_process_activity. intros ctx. apply extends_on_message_activity.
  - match goal with
    | |- extends (match ?r with _ => _ end) => destruct r
    end; auto with trace.
Qed.

(** ** The activity handler *)

Lemma on_message_activity_stripped (rt : Runtime) (w : World)
  (ctx : TurnContext) (t : pystr) (tr : list event) :
  activity_text (activity ctx) = Some t ->
  on_message_activity rt w ctx tr =
    let tr1 := tr ++ [CallHandler "on_message_activity" (activity ctx)] in
    match py_strip t with
    | [] => send_activity w ctx (MessageFactory_text prompt_text) tr1
    | _ :: _ =>
        if str_in_list (py_lower rt (py_strip t)) help_keywords then
          send_activity w ctx (MessageFactory_text help_text) tr1
        else
          (let* target_language :=
             (emit (CallDetect (py_strip t)) ;;
              ret (_detect_language_and_get_target (py_strip t))) in
           send_activity w ctx typing_activity ;;
           let* translated_text :=
             translate_text rt w (py_strip t) target_language in
           send_activity w ctx (MessageFactory_text translated_text)) tr1
    end.
Proof.
  intros Ht. unfold on_message_activity, bind at 1 2, emit, lift, text_strip.
  rewrite Ht. simpl. destruct (py_strip t); [reflexivity |].
  destruct (str_in_list _ _); reflexivity.
Qed.

(** C5: a message whose text is empty or white space only gets the fixed
    prompt as its single reply, and the handler returns with nothing added
    to the trace but its entry and that send: no call of [translate_text],
    no HTTP request. *)
Theorem C5_blank_text_gets_prompt (rt : Runtime) (w : World)
  (ctx : TurnContext) (t : pystr) (tr : list event) :
  activity_text (activity ctx) = Some t ->
  blank t ->
  let entered := tr ++ [CallHandler "on_message_activity" (activity ctx)] in
  on_message_activity rt w ctx tr =
    (send_result w entered (MessageFactory_text prompt_text),
     entered ++ [SendActivity (MessageFactory_text prompt_text)]) /\
  existsb is_translation_event
    (drop (length tr) (snd (on_message_activity rt w ctx tr))) = false.
Proof.
  intros Ht Hb entered.
  assert (Hrun : on_message_activity rt w ctx tr =
    (send_result w entered (MessageFactory_text prompt_text),
     entered ++ [SendActivity (MessageFactory_text prompt_text)])).
  { rewrite (on_message_activity_stripped rt w ctx t tr Ht).
    rewrite (py_strip_blank t Hb). reflexivity. }
  split; [exact Hrun |].
  rewrite Hrun. unfold entered. simpl. rewrite <- app_assoc.
  rewrite drop_app_length. reflexivity.
Qed.

(** The prompt for a text of a space, a tab, a line feed and a no-break
    space. *)
Lemma C5_blank_text_witness :
  on_message_activity sample_runtime (sample_world None None)
    {| activity := MessageFactory_text [32; 9; 10; 160]%N |} [] =
    (Return tt,
     [CallHandler "on_message_activity" (MessageFactory_text [32; 9; 10; 160]%N);
      SendActivity (MessageFactory_text prompt_text)]).
Proof.
  refine (proj1 (C5_blank_text_gets_prompt sample_runtime (sample_world None None)
           {| activity := MessageFactory_text [32; 9; 10; 160]%N |}
           [32; 9; 10; 160]%N [] eq_refl _)).
  intros c Hc. simpl in Hc.
  repeat (destruct Hc as [<- | Hc]; [reflexivity |]). destruct Hc.
Defined.

(** C3: a message whose trimmed text equals, letter case aside, one of
    ["/help"], ["help"], ["/translate help"] gets the fixed help text as its
    single reply; the handler returns without running the heuristic, calling
    [translate_text] or making an HTTP request. *)
Theorem C3_help_keyword_gets_help (rt : Runtime) (w : World)
  (ctx : TurnContext) (t k : pystr) (tr : list event) :
  activity_text (activity ctx) = Some t ->
  k = lit "/help" \/ k = lit "help" \/ k = lit "/translate help" ->
  caseless_eq rt (py_strip t) k ->
  let entered := tr ++ [CallHandler "on_message_activity" (activity ctx)] in
  on_message_activity rt w ctx tr =
    (send_result w entered (MessageFactory_text help_text),
     entered ++ [SendActivity (MessageFactory_text help_text)]) /\
  existsb (fun ev => is_translation_event ev || is_detect_event ev)
    (drop (length tr) (snd (on_message_activity rt w ctx tr))) = false.
Proof.
  intros Ht Hk Heq entered.
  destruct (help_keywords_lower rt k Hk) as [Hlow [Hne Hin]].
  unfold caseless_eq in Heq. rewrite Hlow in Heq.
  assert (Hrun : on_message_activity rt w ctx tr =
    (send_result w entered (MessageFactory_text help_text),
     entered ++ [SendActivity (MessageFactory_text help_text)])).
  { rewrite (on_message_activity_stripped rt w ctx t tr Ht).
    destruct (py_strip t) as [|c u] eqn:Hs.
    - exfalso. apply Hne. rewrite <- Heq. reflexivity.
    - cbv zeta. rewrite Heq, Hin. reflexivity. }
  split; [exact Hrun |].
  rewrite Hrun. unfold entered. simpl. rewrite <- app_assoc.
  rewrite drop_app_length. reflexivity.
Qed.

(** The help text for the message ["  /Translate HELP\n"]. *)
Lemma C3_help_keyword_witness :
  on_message_activity sample_runtime (sample_world None None)
    {| activity := MessageFactory_text (lit "  /Translate HELP" ++ [10%N]) |} [] =
    (Return tt,
     [CallHandler "on_message_activity"
        (MessageFactory_text (lit "  /Translate HELP" ++ [10%N]));
      SendActivity (MessageFactory_text help_text)]).
Proof.
  refine (proj1 (C3_help_keyword_gets_help sample_runtime (sample_world None None)
           {| activity := MessageFactory_text (lit "  /Translate HELP" ++ [10%N]) |}
           (lit "  /Translate HELP" ++ [10%N]) (lit "/translate help") []
           eq_refl _ _)).
  - right; right; reflexivity.
  - reflexivity.
Defined.

(** ** The translation client *)

Lemma bind_lift {A B} (r : pyresult A) (f : A -> M B) (tr : list event) :
  bind (lift r) f tr =
    match r with
    | Return a => f a tr
    | Raise e => (Raise e, tr)
    end.
Proof. unfold bind, lift. destruct r; reflexivity. Qed.

Lemma lift_chain_read_reply (rt : Runtime) (target : pystr) (result : value)
  (tr : list event) :
  (let* first := lift (getitem result (IxInt 0)) in
   let* translations := lift (getitem first (IxStr (lit "translations"))) in
   let* translation := lift (getitem translations (IxInt 0)) in
   let* translated_text := lift (getitem translation (IxStr (lit "text"))) in
   let* first' := lift (getitem result (IxInt 0)) in
   let* detected :=
     lift (method_get first' (lit "detectedLanguage") (PyDict [])) in
   let* detected_language :=
     lift (method_get detected (lit "language") (PyStr (lit "unknown"))) in
   ret (translated_message rt detected_language target translated_text)) tr
  = (read_reply rt target result, tr).
Proof.
  unfold read_reply.
  repeat (rewrite bind_lift;
          match goal with
          | |- context [rbind ?r _] => destruct r; simpl; [| reflexivity]
          end).
  reflexivity.
Qed.

(** The reply is read without an exception exactly when it is well formed. *)
Lemma read_reply_well_formed (rt : Runtime) (target : pystr) (result : value) :
  well_formed_body result ->
  exists d x, read_reply rt target result = Return (translated_message rt d target x).
Proof.
  intros [fields rest tfields trest text Htr Htext Hdet].
  unfold read_reply. simpl. rewrite Htr. simpl. rewrite Htext. simpl.
  destruct Hdet as [Hnone | [d Hd]].
  - rewrite Hnone. simpl. eauto.
  - rewrite Hd. simpl. destruct (dict_lookup (lit "language") d); simpl; eauto.
Qed.

Lemma read_reply_returns (rt : Runtime) (target : pystr) (result : value) (s : pystr) :
  read_reply rt target result = Return s -> well_formed_body result.
Proof.
  unfold read_reply.
  destruct result as [| | | |str|items|]; try discriminate.
  { simpl. destruct (seq_index str 0); discriminate. }
  destruct items as [|first rest]; [discriminate |].
  destruct first as [| | | | | |fields]; try discriminate.
  simpl.
  destruct (dict_lookup (lit "translations") fields) as [translations|] eqn:Htr;
    [| discriminate].
  simpl.
  destruct translations as [| | | |ts|titems|tf]; try discriminate.
  - simpl. destruct (seq_index ts 0); discriminate.
  - destruct titems as [|translation trest]; [discriminate |].
    destruct translation as [| | | | | |tfields]; try discriminate.
    simpl.
    destruct (dict_lookup (lit "text") tfields) as [text|] eqn:Htext;
      [| discriminate].
    simpl.
    destruct (dict_lookup (lit "detectedLanguage") fields) as [det|] eqn:Hdet.
    + simpl. destruct det as [| | | | | |d]; try discriminate.
      intros _. econstructor; eauto.
    + intros _. econstructor; eauto.
Qed.

Lemma read_reply_malformed (rt : Runtime) (target : pystr) (result : value) :
  ~ well_formed_body result ->
  exists e, read_reply rt target result = Raise e.
Proof.
  intros Hn. destruct (read_reply rt target result) as [s | e] eqn:Hr.
  - exfalso. apply Hn. exact (read_reply_returns rt target result s Hr).
  - eauto.
Qed.

(** [translate_text] without its exception handler unfolded, step by step. *)
Lemma translate_request_run (rt : Runtime) (w : World) (client : Session)
  (key text target : pystr) (tr : list event) :
  let r := translate_http_request w key text target in
  translate_request rt w client key text target tr =
    (match post client r with
     | Raise e => Raise e
     | Return resp =>
         if ((400 <=? status_code resp) && (status_code resp <? 600))%Z
         then Raise (HTTPError (status_code resp) (reason resp) (url resp))
         else rbind (json resp) (read_reply rt target)
     end, tr ++ [HttpPost r]).
Proof.
  intros r. unfold translate_request, session_post.
  fold (translate_http_request w key text target). fold r.
  unfold bind at 1 2, emit at 1, lift at 1. simpl.
  destruct (post client r) as [resp | e]; [| reflexivity].
  unfold bind at 1, raise_for_status.
  destruct ((400 <=? status_code resp) && (status_code resp <? 600))%Z;
    [reflexivity |].
  unfold ret at 1. rewrite bind_lift.
  destruct (json resp) as [result | e]; [| reflexivity].
  apply lift_chain_read_reply.
Qed.

(** When no session could be created the bot has no client. *)
Lemma _create_translator_client_spec (new_session : pyresult Session) :
  _create_translator_client new_session = None <->
  exists e, new_session = Raise e.
Proof.
  destruct new_session as [s | e]; simpl; split; try discriminate; eauto.
  intros [e H]. discriminate.
Qed.

Lemma translate_text_unconfigured (rt : Runtime) (w : World)
  (text target : pystr) (tr : list event) :
  translator_client (bot w) = None \/ truthy_str (TRANSLATOR_KEY w) = false ->
  translate_text rt w text target tr =
    (Return not_configured, tr ++ [CallTranslate text target]).
Proof.
  intros H. unfold translate_text, bind, emit.
  destruct (translator_client (bot w)) as [client|].
  - destruct H as [H | H]; [discriminate |].
    destruct (TRANSLATOR_KEY w) as [[|c key]|]; try reflexivity; discriminate.
  - destruct (TRANSLATOR_KEY w) as [[|c key]|]; reflexivity.
Qed.

Lemma translate_text_configured (rt : Runtime) (w : World) (client : Session)
  (key text target : pystr) (tr : list event) :
  translator_client (bot w) = Some client ->
  TRANSLATOR_KEY w = Some key -> key <> [] ->
  let r := translate_http_request w key text target in
  let called := tr ++ [CallTranslate text target; HttpPost r] in
  translate_text rt w text target tr =
    match
      match post client r with
      | Raise e => Raise e
      | Return resp =>
          if ((400 <=? status_code resp) && (status_code resp <? 600))%Z
          then Raise (HTTPError (status_code resp) (reason resp) (url resp))
          else rbind (json resp) (read_reply rt target)
      end
    with
    | Return s => (Return s, called)
    | Raise e =>
        (Return (failure_prefix ++ str_of_exn rt e),
         called ++ [LogError (lit "Translation error: " ++ str_of_exn rt e)])
    end.
Proof.
  intros Hc Hk Hne r called. unfold translate_text.
  rewrite Hc, Hk. destruct key as [|c key]; [congruence |].
  unfold bind at 1, emit at 1, try_except.
  rewrite translate_request_run. fold r.
  unfold called. rewrite <- app_assoc. simpl.
  match goal with
  | |- context [match ?x with Return _ => _ | Raise _ => _ end] =>
      destruct x; reflexivity
  end.
Qed.

Lemma error_status_test (s : Z) :
  ((400 <=? s) && (s <? 600))%Z = true <-> error_status s.
Proof.
  unfold error_status. rewrite andb_true_iff, Z.leb_le, Z.ltb_lt. reflexivity.
Qed.

(** C4, as the code has it: [translate_text] always returns a string and
    never raises.  It returns the fixed not-configured string when the client
    or the key is missing or empty; the failure string with the error's text
    on a transport error, on a 4xx or 5xx status (the statuses
    [raise_for_status] rejects), on a body that is not JSON and on a JSON
    body that is not well formed; and the translated message otherwise. *)
Theorem C4_translate_text_never_raises (rt : Runtime) (w : World)
  (text target : pystr) (tr : list event) :
  exists s,
    fst (translate_text rt w text target tr) = Return s /\
    (translator_client (bot w) = None \/ truthy_str (TRANSLATOR_KEY w) = false ->
     s = not_configured) /\
    (forall client key,
       translator_client (bot w) = Some client ->
       TRANSLATOR_KEY w = Some key -> key <> [] ->
       match post client (translate_http_request w key text target) with
       | Raise e => s = failure_prefix ++ str_of_exn rt e
       | Return resp =>
           (error_status (status_code resp) ->
            s = failure_prefix ++
                str_of_exn rt
                  (HTTPError (status_code resp) (reason resp) (url resp))) /\
           (~ error_status (status_code resp) ->
            match json resp with
            | Raise e => s = failure_prefix ++ str_of_exn rt e
            | Return b =>
                (~ well_formed_body b ->
                 exists e, s = failure_prefix ++ str_of_exn rt e) /\
                (well_formed_body b ->
                 exists d x, s = translated_message rt d target x)
            end)
       end).
Proof.
  destruct (translator_client (bot w)) as [client|] eqn:Hc.
  2:{ exists not_configured.
      rewrite translate_text_unconfigured by (left; exact Hc).
      split; [reflexivity | split; [reflexivity | discriminate]]. }
  destruct (TRANSLATOR_KEY w) as [[|c key]|] eqn:Hk.
  1,3: exists not_configured;
       rewrite translate_text_unconfigured by (right; rewrite Hk; reflexivity);
       (split; [reflexivity | split; [reflexivity | idtac]]);
       intros client' key' _ Hk' Hne; congruence.
  pose proof (translate_text_configured rt w client (c :: key) text target tr
                Hc Hk ltac:(discriminate)) as Hrun.
  cbv zeta in Hrun.
  set (r := translate_http_request w (c :: key) text target) in *.
  assert (Hok : forall resp : Response,
             ((400 <=? status_code resp) && (status_code resp <? 600))%Z = false ->
             ~ error_status (status_code resp)).
  { intros resp Hst H. apply error_status_test in H. congruence. }
  destruct (post client r) as [resp | e] eqn:Hpost;
    [ destruct ((400 <=? status_code resp) && (status_code resp <? 600))%Z eqn:Hst;
      [| destruct (json resp) as [b | e] eqn:Hjson; simpl in Hrun;
         [ destruct (read_reply rt target b) as [s | e] eqn:Hread |] ] |];
    eexists; rewrite Hrun;
    (split; [reflexivity |]);
    (split; [intros [H | H]; discriminate |]);
    intros client' key' Hc' Hk' _;
    injection Hc' as <-; injection Hk' as <-;
    fold r; rewrite Hpost.
  - split; [reflexivity |].
    intros Hn. exfalso. apply Hn, error_status_test, Hst.
  - split; [intros H; destruct (Hok resp Hst H) |].
    intros _. rewrite Hjson. split.
    + intros Hn. exfalso. apply Hn.
      exact (read_reply_returns rt target b s Hread).
    + intros Hwf.
      destruct (read_reply_well_formed rt target b Hwf) as [d [x Hdx]].
      exists d, x. congruence.
  - split; [intros H; destruct (Hok resp Hst H) |].
    intros _. rewrite Hjson. split.
    + intros _. exists e. reflexivity.
    + intros Hwf.
      destruct (read_reply_well_formed rt target b Hwf) as [d [x Hdx]].
      congruence.
  - split; [intros H; destruct (Hok resp Hst H) |].
    intros _. rewrite Hjson. reflexivity.
  - reflexivity.
Qed.

(** A transport time-out comes back as the failure string. *)
Lemma C4_translate_text_witness :
  exists s,
    fst (translate_text sample_runtime
           (sample_world (Some unreachable) (Some (lit "k")))
           (lit "Hello") (lit "si") []) = Return s /\
    s = failure_prefix ++ lit "connection timed out".
Proof.
  destruct (C4_translate_text_never_raises sample_runtime
              (sample_world (Some unreachable) (Some (lit "k")))
              (lit "Hello") (lit "si") []) as [s [Hs [_ Hconf]]].
  exists s. split; [exact Hs |].
  exact (Hconf unreachable (lit "k") eq_refl eq_refl ltac:(discriminate)).
Defined.

(** C4 as first stated fails at a status that is neither 2xx nor an error
    status: a reply with status 300 and a well-formed body is not reported
    as a failure, the translated message comes back. *)
Lemma C4_counterexample_status_300 :
  let client := answering 300 (Return (example_reply (lit "X"))) in
  let w := sample_world (Some client) (Some (lit "k")) in
  let s := lit "**Translated** (en " ++ [226; 8224; 8217]%N ++ lit " si):"
           ++ [10%N] ++ lit "X" in
  (exists resp,
     post client (translate_http_request w (lit "k") (lit "Hello") (lit "si"))
       = Return resp /\
     status_code resp = 300%Z /\ ~ (200 <= status_code resp < 300)%Z) /\
  fst (translate_text sample_runtime w (lit "Hello") (lit "si") []) = Return s /\
  ~ occurs_in (lit "failed") s.
Proof.
  cbv zeta. split; [| split].
  - eexists. split; [reflexivity |]. simpl. split; [reflexivity | lia].
  - reflexivity.
  - rewrite <- str_contains_spec. vm_compute. discriminate.
Qed.

(** An upstream HTTP 500 and a transport time-out both come back as the
    failure string. *)
Example translate_text_upstream_failures :
  fst (translate_text sample_runtime
         (sample_world (Some (answering 500 (Return PyNone))) (Some (lit "k")))
         (lit "Hello") (lit "si") [])
    = Return (failure_prefix ++ lit "reason for url: "
              ++ lit "https://api.cognitive.microsofttranslator.com/translate") /\
  fst (translate_text sample_runtime
         (sample_world (Some unreachable) (Some (lit "k")))
         (lit "Hello") (lit "si") [])
    = Return (failure_prefix ++ lit "connection timed out") /\
  fst (translate_text sample_runtime
         (sample_world (Some (answering 200 (Return (PyDict [])))) (Some (lit "k")))
         (lit "Hello") (lit "si") [])
    = Return (failure_prefix ++ lit "0") /\
  fst (translate_text sample_runtime
         (sample_world (Some unreachable) (Some []))
         (lit "Hello") (lit "si") [])
    = Return not_configured.
Proof. repeat split. Qed.

Lemma occurs_in_intro (sub s pre post : pystr) :
  s = pre ++ sub ++ post -> occurs_in sub s.
Proof. intros H. exists pre, post. exact H. Qed.

(** C6: when the call succeeds (a 2xx status) with the body
    [[{"translations":[{"text":X}],"detectedLanguage":{"language":"en"}}]]
    for the text ["Hello"] and the target ["si"], [translate_text] returns
    the translated message, in which ["en"], ["si"] and [X] all occur. *)
Theorem C6_success_reply_embeds_codes_and_text (rt : Runtime) (w : World)
  (client : Session) (key x : pystr) (resp : Response) (tr : list event) :
  translator_client (bot w) = Some client ->
  TRANSLATOR_KEY w = Some key -> key <> [] ->
  post client (translate_http_request w key (lit "Hello") (lit "si"))
    = Return resp ->
  (200 <= status_code resp < 300)%Z ->
  json resp = Return (example_reply x) ->
  exists s,
    fst (translate_text rt w (lit "Hello") (lit "si") tr) = Return s /\
    s = lit "**Translated** (en " ++ [226; 8224; 8217]%N ++ lit " si):"
        ++ [10%N] ++ x /\
    occurs_in (lit "en") s /\ occurs_in (lit "si") s /\ occurs_in x s.
Proof.
  intros Hc Hk Hne Hpost Hst Hjson.
  rewrite (translate_text_configured rt w client key (lit "Hello") (lit "si") tr
             Hc Hk Hne).
  cbv zeta. rewrite Hpost.
  replace ((400 <=? status_code resp) && (status_code resp <? 600))%Z with false
    by (symmetry; apply andb_false_iff; left; apply Z.leb_gt; lia).
  rewrite Hjson. simpl.
  eexists. split; [reflexivity |]. split; [reflexivity |].
  split; [| split].
  - apply (occurs_in_intro _ _ (lit "**Translated** (")
             ([32; 226; 8224; 8217]%N ++ lit " si):" ++ [10%N] ++ x)).
    reflexivity.
  - apply (occurs_in_intro _ _ (lit "**Translated** (en " ++ [226; 8224; 8217; 32]%N)
             (lit "):" ++ [10%N] ++ x)).
    reflexivity.
  - apply (occurs_in_intro _ _
             (lit "**Translated** (en " ++ [226; 8224; 8217]%N ++ lit " si):"
              ++ [10%N]) []).
    rewrite app_nil_r. unfold translated_message. simpl. reflexivity.
Qed.

(** The example of the specification, [X] being the text ["X"]. *)
Lemma C6_success_reply_witness :
  exists s,
    fst (translate_text sample_runtime
           (sample_world (Some (answering 200 (Return (example_reply (lit "X")))))
              (Some (lit "k")))
           (lit "Hello") (lit "si") []) = Return s /\
    s = lit "**Translated** (en " ++ [226; 8224; 8217]%N ++ lit " si):"
        ++ [10%N] ++ lit "X" /\
    occurs_in (lit "en") s /\ occurs_in (lit "si") s /\ occurs_in (lit "X") s.
Proof.
  refine (C6_success_reply_embeds_codes_and_text sample_runtime
            (sample_world (Some (answering 200 (Return (example_reply (lit "X")))))
               (Some (lit "k")))
            (answering 200 (Return (example_reply (lit "X")))) (lit "k") (lit "X")
            {| status_code := 200; reason := lit "reason";
               url := lit "https://api.cognitive.microsofttranslator.com/translate";
               json := Return (example_reply (lit "X")) |}
            [] eq_refl eq_refl _ eq_refl _ eq_refl).
  - discriminate.
  - simpl. lia.
Defined.

(** ** The endpoint *)

Lemma messages_no_content_type (rt : Runtime) (w : World) (request : Request)
  (tr : list event) :
  headers request !! "Content-Type" = None ->
  messages rt w request tr = (Raise (KeyError (PyStr (lit "CONTENT_TYPE"))), tr).
Proof.
  intros H. unfold messages, headers_getitem. rewrite H. reflexivity.
Qed.

Lemma messages_rejected (rt : Runtime) (w : World) (request : Request)
  (ct : pystr) (tr : list event) :
  headers request !! "Content-Type" = Some ct ->
  str_contains (lit "application/json") ct = false ->
  messages rt w request tr =
    (Return (error_body (lit "Invalid content type"), 415%Z), tr).
Proof.
  intros H Hc. unfold messages, headers_getitem. rewrite H, bind_lift, Hc.
  reflexivity.
Qed.

Lemma messages_accepted (rt : Runtime) (w : World) (request : Request)
  (ct : pystr) (tr : list event) :
  headers request !! "Content-Type" = Some ct ->
  str_contains (lit "application/json") ct = true ->
  messages rt w request tr =
    match request_json request with
    | Raise e => (Raise e, tr ++ [ReadJson])
    | Return b =>
        match deserialize w b with
        | Raise e => (Raise e, tr ++ [ReadJson; Deserialize b])
        | Return a =>
            match process_activity w a (auth_header_of request)
                    (on_message_activity rt w)
                    (tr ++ [ReadJson; Deserialize b]) with
            | (Raise e, tr') =>
                (Return (error_body (str_of_exn rt e), 500%Z),
                 tr' ++ [LogError (lit "Error processing activity: "
                                   ++ str_of_exn rt e)])
            | (Return (Some r), tr') =>
                (Return (jsonify (ir_body r), ir_status r), tr')
            | (Return None, tr') => (Return (TextBody [], 200%Z), tr')
            end
        end
    end.
Proof.
  intros H Hc. unfold messages, headers_getitem. rewrite H, bind_lift, Hc.
  unfold bind at 1 2, emit at 1, lift at 1.
  destruct (request_json request) as [b | e]; [| reflexivity].
  unfold bind at 1 2, emit at 1, lift at 1.
  rewrite <- app_assoc. simpl.
  destruct (deserialize w b) as [a | e]; [| reflexivity].
  unfold try_except, bind at 1. fold (auth_header_of request).
  destruct (process_activity w a (auth_header_of request) _ _)
    as [[[r |] | e] tr']; reflexivity.
Qed.

(** Once the gate is passed, whatever happens leaves [ReadJson] on the
    trace. *)
Lemma messages_accepted_reads_json (rt : Runtime) (w : World)
  (request : Request) (ct : pystr) :
  headers request !! "Content-Type" = Some ct ->
  str_contains (lit "application/json") ct = true ->
  In ReadJson (snd (messages rt w request [])).
Proof.
  intros H Hc. rewrite (messages_accepted rt w request ct [] H Hc). simpl.
  destruct (request_json request) as [b | e]; [| simpl; auto].
  destruct (deserialize w b) as [a | e]; [| simpl; auto].
  destruct (extends_process_activity w a (auth_header_of request)
              (on_message_activity rt w)
              (extends_on_message_activity rt w) [ReadJson; Deserialize b])
    as [new Hnew].
  destruct (process_activity _ _ _ _ _) as [[[r |] | e] tr'];
    simpl in Hnew; subst tr'; simpl; auto.
Qed.

(** C7 as first stated fails at a content type other than
    [application/json] that has it as a substring: the request passes the
    gate, the body is deserialized and the handler runs. *)
Lemma C7_counterexample_json_patch :
  let ct := lit "application/json-patch+json" in
  let request := json_request (Some ct) (message_json (lit "help")) in
  let w := sample_world None None in
  headers request !! "Content-Type" = Some ct /\
  ct <> lit "application/json" /\
  messages sample_runtime w request [] =
    (Return (TextBody [], 200%Z),
     [ReadJson; Deserialize (message_json (lit "help"));
      CallHandler "on_message_activity" (message_activity (lit "help"));
      SendActivity (MessageFactory_text help_text)]).
Proof.
  cbv zeta. split; [| split].
  - reflexivity.
  - discriminate.
  - reflexivity.
Qed.

(** C7, as the code has it: a request whose [Content-Type] is present and
    does not contain [application/json] is answered 415 with the JSON error
    body, and nothing else happens: the body is not read or deserialized and
    the handler is not invoked. *)
Theorem C7_other_content_type_is_415 (rt : Runtime) (w : World)
  (request : Request) (ct : pystr) (tr : list event) :
  headers request !! "Content-Type" = Some ct ->
  ~ occurs_in (lit "application/json") ct ->
  messages rt w request tr =
    (Return (jsonify (PyDict [ (lit "error", PyStr (lit "Invalid content type")) ]),
             415%Z), tr).
Proof.
  intros H Hn. apply (messages_rejected rt w request ct tr H).
  destruct (str_contains (lit "application/json") ct) eqn:Hc; [| reflexivity].
  exfalso. apply Hn, str_contains_spec, Hc.
Qed.

(** [text/plain] is answered 415. *)
Lemma C7_text_plain_witness :
  messages sample_runtime (sample_world None None)
    (json_request (Some (lit "text/plain")) (message_json (lit "help"))) [] =
    (Return (jsonify (PyDict [ (lit "error", PyStr (lit "Invalid content type")) ]),
             415%Z), []).
Proof.
  refine (C7_other_content_type_is_415 sample_runtime (sample_world None None)
            (json_request (Some (lit "text/plain")) (message_json (lit "help")))
            (lit "text/plain") [] eq_refl _).
  rewrite <- str_contains_spec. vm_compute. discriminate.
Defined.

(** C8: past the content-type check, with the body read and deserialized,
    the endpoint always answers.  An exception raised while the adapter
    processes the activity (authentication or the handler) is caught, logged
    and answered 500 with the error's text in a JSON body; otherwise the
    synchronous response's body and status are returned when there is one,
    and an empty body with 200 when there is none. *)
Theorem C8_processing_outcomes (rt : Runtime) (w : World) (request : Request)
  (ct : pystr) (b : value) (a : Activity) :
  headers request !! "Content-Type" = Some ct ->
  occurs_in (lit "application/json") ct ->
  request_json request = Return b ->
  deserialize w b = Return a ->
  let processing :=
    process_activity w a (auth_header_of request) (on_message_activity rt w)
      [ReadJson; Deserialize b] in
  (forall e tr,
     processing = (Raise e, tr) ->
     messages rt w request [] =
       (Return (jsonify (PyDict [ (lit "error", PyStr (str_of_exn rt e)) ]),
                500%Z),
        tr ++ [LogError (lit "Error processing activity: " ++ str_of_exn rt e)])) /\
  (forall r tr,
     processing = (Return (Some r), tr) ->
     messages rt w request [] = (Return (jsonify (ir_body r), ir_status r), tr)) /\
  (forall tr,
     processing = (Return None, tr) ->
     messages rt w request [] = (Return (TextBody [], 200%Z), tr)) /\
  (exists answer tr, messages rt w request [] = (Return answer, tr)).
Proof.
  intros H Hc Hjson Hdes processing.
  apply str_contains_spec in Hc.
  pose proof (messages_accepted rt w request ct [] H Hc) as Hrun.
  rewrite Hjson, Hdes in Hrun. simpl in Hrun. fold processing in Hrun.
  repeat split.
  - intros e tr Hp. rewrite Hrun, Hp. reflexivity.
  - intros r tr Hp. rewrite Hrun, Hp. reflexivity.
  - intros tr Hp. rewrite Hrun, Hp. reflexivity.
  - rewrite Hrun. destruct processing as [[[r |] | e] tr]; eauto.
Qed.

(** A request whose authentication fails is answered 500 with the
    adapter's message. *)
Lemma C8_processing_outcomes_witness :
  messages sample_runtime unauthorized_world
    (json_request (Some (lit "application/json; charset=utf-8"))
       (message_json (lit "Hello"))) [] =
    (Return (jsonify (PyDict [ (lit "error", PyStr (lit "Unauthorized")) ]), 500%Z),
     [ReadJson; Deserialize (message_json (lit "Hello"));
      LogError (lit "Error processing activity: Unauthorized")]).
Proof.
  refine (proj1 (C8_processing_outcomes sample_runtime unauthorized_world
            (json_request (Some (lit "application/json; charset=utf-8"))
               (message_json (lit "Hello")))
            (lit "application/json; charset=utf-8") (message_json (lit "Hello"))
            (message_activity (lit "Hello")) eq_refl _ eq_refl eq_refl)
          (LibraryError "PermissionError" (lit "Unauthorized"))
          [ReadJson; Deserialize (message_json (lit "Hello"))] eq_refl).
  exists [], (lit "; charset=utf-8"). reflexivity.
Defined.

(** C9: a message activity without a text makes the handler raise
    [AttributeError] at [.strip()], before anything is sent; at the endpoint
    the adapter lets it through and the request is answered 500 with the
    error's text, not with the prompt. *)
Theorem C9_missing_text_raises (rt : Runtime) (w : World) (a : Activity) :
  activity_text a = None ->
  (forall tr,
     on_message_activity rt w {| activity := a |} tr =
       (Raise (AttributeError "NoneType" "strip"),
        tr ++ [CallHandler "on_message_activity" a])) /\
  (forall request ct b,
     headers request !! "Content-Type" = Some ct ->
     occurs_in (lit "application/json") ct ->
     request_json request = Return b ->
     deserialize w b = Return a ->
     authenticate w a (auth_header_of request) = None ->
     let msg := str_of_exn rt (AttributeError "NoneType" "strip") in
     messages rt w request [] =
       (Return (jsonify (PyDict [ (lit "error", PyStr msg) ]), 500%Z),
        [ReadJson; Deserialize b; CallHandler "on_message_activity" a;
         LogError (lit "Error processing activity: " ++ msg)])).
Proof.
  intros Ht.
  assert (Hh : forall tr,
     on_message_activity rt w {| activity := a |} tr =
       (Raise (AttributeError "NoneType" "strip"),
        tr ++ [CallHandler "on_message_activity" a])).
  { intros tr. unfold on_message_activity, bind, emit, lift, text_strip.
    simpl. rewrite Ht. reflexivity. }
  split; [exact Hh |].
  intros request ct b H Hc Hjson Hdes Hauth msg.
  apply str_contains_spec in Hc.
  rewrite (messages_accepted rt w request ct [] H Hc), Hjson, Hdes.
  unfold process_activity. rewrite Hauth. unfold bind at 1. rewrite Hh.
  reflexivity.
Qed.

(** A conversation update, which carries no text, is answered 500. *)
Lemma C9_missing_text_witness :
  messages sample_runtime (sample_world None None)
    (json_request (Some (lit "application/json")) members_added_json) [] =
    (Return (jsonify (PyDict [ (lit "error",
               PyStr (lit "'NoneType' object has no attribute 'strip'")) ]),
             500%Z),
     [ReadJson; Deserialize members_added_json;
      CallHandler "on_message_activity" members_added_activity;
      LogError (lit "Error processing activity: "
                ++ lit "'NoneType' object has no attribute 'strip'")]).
Proof.
  refine (proj2 (C9_missing_text_raises sample_runtime (sample_world None None)
            members_added_activity eq_refl)
          (json_request (Some (lit "application/json")) members_added_json)
          (lit "application/json") members_added_json eq_refl _ eq_refl eq_refl
          eq_refl).
  exists [], []. reflexivity.
Defined.

(** C10: the gate is a substring test.  With a [Content-Type] header the
    body is read as JSON exactly when [application/json] occurs somewhere in
    the header's value; the 415 answer, with nothing read, is given exactly
    when the header is there and lacks it; and without the header the lookup
    raises and nothing is answered, 415 or otherwise. *)
Theorem C10_content_type_gate (rt : Runtime) (w : World) (request : Request) :
  (forall ct,
     headers request !! "Content-Type" = Some ct ->
     (In ReadJson (snd (messages rt w request [])) <->
      occurs_in (lit "application/json") ct)) /\
  (messages rt w request [] =
     (Return (jsonify (PyDict [ (lit "error", PyStr (lit "Invalid content type")) ]),
              415%Z), []) <->
   exists ct, headers request !! "Content-Type" = Some ct /\
              ~ occurs_in (lit "application/json") ct) /\
  (headers request !! "Content-Type" = None ->
   exists e, messages rt w request [] = (Raise e, [])).
Proof.
  split; [| split].
  - intros ct H. rewrite <- str_contains_spec.
    destruct (str_contains (lit "application/json") ct) eqn:Hc.
    + split; [reflexivity |]. intros _.
      exact (messages_accepted_reads_json rt w request ct H Hc).
    + rewrite (messages_rejected rt w request ct [] H Hc). simpl.
      split; [intros [] | discriminate].
  - split.
    + intros Hrun.
      destruct (headers request !! "Content-Type") as [ct|] eqn:H.
      * exists ct. split; [reflexivity |].
        rewrite <- str_contains_spec. intros Hc.
        pose proof (messages_accepted_reads_json rt w request ct H Hc) as Hin.
        rewrite Hrun in Hin. destruct Hin.
      * rewrite (messages_no_content_type rt w request [] H) in Hrun.
        discriminate.
    + intros [ct [H Hn]].
      apply (messages_rejected rt w request ct [] H).
      destruct (str_contains (lit "application/json") ct) eqn:Hc;
        [| reflexivity].
      exfalso. apply Hn, str_contains_spec, Hc.
  - intros H. eexists. apply messages_no_content_type. exact H.
Qed.

(** The gate at a header with a parameter, and at a request without the
    header. *)
Lemma C10_content_type_gate_witness :
  In ReadJson
    (snd (messages sample_runtime (sample_world None None)
            (json_request (Some (lit "application/json; charset=utf-8"))
               (message_json (lit "help"))) [])) /\
  exists e,
    messages sample_runtime (sample_world None None)
      (json_request None (message_json (lit "help"))) [] = (Raise e, []).
Proof.
  split.
  - apply (proj1 (C10_content_type_gate sample_runtime (sample_world None None)
                    (json_request (Some (lit "application/json; charset=utf-8"))
                       (message_json (lit "help"))))
             (lit "application/json; charset=utf-8") eq_refl).
    exists [], (lit "; charset=utf-8"). reflexivity.
  - apply (proj2 (proj2 (C10_content_type_gate sample_runtime
                           (sample_world None None)
                           (json_request None (message_json (lit "help")))))).
    reflexivity.
Defined.

(** ** Members added *)

Lemma for_each_welcome (w : World) (ctx : TurnContext) (r : ChannelAccount)
  (members : list ChannelAccount) (tr : list event) :
  activity_recipient (activity ctx) = Some r ->
  (forall tr' a, send_outcome w tr' a = None) ->
  for_each members (fun member =>
    let* rid := lift (recipient_id (activity ctx)) in
    if bool_decide (account_id member <> rid) then
      send_activity w ctx (MessageFactory_text welcome_text)
    else ret tt) tr =
  (Return tt,
   tr ++ map (fun _ => SendActivity (MessageFactory_text welcome_text))
           (newcomers r members)).
Proof.
  intros Hr Hsend. unfold recipient_id. rewrite Hr. revert tr.
  induction members as [|m members IH]; intros tr.
  - simpl. unfold ret. rewrite app_nil_r. reflexivity.
  - cbn [for_each]. unfold bind at 1. rewrite bind_lift.
    unfold newcomers. rewrite filter_cons. fold (newcomers r members).
    destruct (decide (account_id m <> account_id r)) as [Hd | Hd].
    + rewrite (bool_decide_eq_true_2 _ Hd).
      unfold send_activity. rewrite Hsend. cbv beta iota.
      rewrite IH, <- app_assoc. reflexivity.
    + rewrite (bool_decide_eq_false_2 _ Hd). unfold ret at 1. cbv beta iota.
      apply IH.
Qed.

(** The handler for added members, had it been reached: with a recipient
    on the activity and a channel that delivers, it sends one welcome per
    member other than the bot and does nothing else. *)
Lemma on_members_added_activity_welcomes (w : World) (ctx : TurnContext)
  (r : ChannelAccount) (members : list ChannelAccount) (tr : list event) :
  activity_recipient (activity ctx) = Some r ->
  (forall tr' a, send_outcome w tr' a = None) ->
  on_members_added_activity w members ctx tr =
    (Return tt,
     tr ++ CallHandler "on_members_added_activity" (activity ctx)
        :: map (fun _ => SendActivity (MessageFactory_text welcome_text))
             (newcomers r members)).
Proof.
  intros Hr Hsend. unfold on_members_added_activity, bind at 1, emit.
  cbv beta iota.
  rewrite (for_each_welcome w ctx r members _ Hr Hsend), <- app_assoc.
  reflexivity.
Qed.

(** C1, where the code departs from it: the endpoint hands every activity
    to [on_message_activity], so [on_members_added_activity] is never run.
    A conversation update announcing the member [user-1] is answered 500
    with nothing sent; the same update carrying a text is translated, with
    one call of [translate_text] and one HTTP request, and still no welcome.
    The handler the endpoint never calls does send the one welcome. *)
Theorem C1_members_added_reach_message_handler :
  let w := sample_world (Some (answering 200 (Return (example_reply (lit "X")))))
             (Some (lit "k")) in
  let plain := json_request (Some (lit "application/json")) members_added_json in
  let with_text :=
    json_request (Some (lit "application/json")) members_added_with_text_json in
  deserialize w members_added_json = Return members_added_activity /\
  newcomers {| account_id := Some (lit "bot") |}
    (activity_members_added members_added_activity)
    = [ {| account_id := Some (lit "user-1") |} ] /\
  fst (messages sample_runtime w plain [])
    = Return (jsonify (PyDict [ (lit "error",
                PyStr (lit "'NoneType' object has no attribute 'strip'")) ]),
              500%Z) /\
  sent_activities (snd (messages sample_runtime w plain [])) = [] /\
  sent_activities (snd (messages sample_runtime w with_text []))
    = [ typing_activity;
        MessageFactory_text
          (lit "**Translated** (en " ++ [226; 8224; 8217]%N ++ lit " si):"
           ++ [10%N] ++ lit "X") ] /\
  filter (fun ev => is_translation_event ev = true)
    (snd (messages sample_runtime w with_text []))
    = [ CallTranslate (lit "hello") (lit "si");
        HttpPost (translate_http_request w (lit "k") (lit "hello") (lit "si")) ] /\
  sent_activities
    (snd (on_members_added_activity w
            (activity_members_added members_added_activity)
            {| activity := members_added_activity |} []))
    = [ MessageFactory_text welcome_text ].
Proof. cbv zeta. repeat split. Qed.

(** * Further properties of the code *)

(** ** Trimming and the heuristic *)

Lemma sinhala_not_space (c : codepoint) :
  is_sinhala c = true -> is_space c = false.
Proof.
  unfold is_sinhala, is_space. intros H.
  apply andb_true_iff in H as [H1 H2]. apply N.leb_le in H1, H2.
  replace (c <=? 0x0d)%N with false by (symmetry; apply N.leb_gt; lia).
  replace (c <=? 0x20)%N with false by (symmetry; apply N.leb_gt; lia).
  replace (c =? 0x85)%N with false by (symmetry; apply N.eqb_neq; lia).
  replace (c =? 0xa0)%N with false by (symmetry; apply N.eqb_neq; lia).
  replace (c =? 0x1680)%N with false by (symmetry; apply N.eqb_neq; lia).
  replace (0x2000 <=? c)%N with false by (symmetry; apply N.leb_gt; lia).
  replace (c =? 0x2028)%N with false by (symmetry; apply N.eqb_neq; lia).
  replace (c =? 0x2029)%N with false by (symmetry; apply N.eqb_neq; lia).
  replace (c =? 0x202f)%N with false by (symmetry; apply N.eqb_neq; lia).
  replace (c =? 0x205f)%N with false by (symmetry; apply N.eqb_neq; lia).
  replace (c =? 0x3000)%N with false by (symmetry; apply N.eqb_neq; lia).
  rewrite !andb_false_r. reflexivity.
Qed.

Lemma existsb_sinhala_lstrip (s : pystr) :
  existsb is_sinhala (lstrip s) = existsb is_sinhala s.
Proof.
  induction s as [|c s IH]; [reflexivity |].
  simpl. destruct (is_space c) eqn:Hc; [| reflexivity].
  rewrite IH. destruct (is_sinhala c) eqn:Hs; [| reflexivity].
  rewrite (sinhala_not_space c Hs) in Hc. discriminate.
Qed.

Lemma existsb_rev {A} (f : A -> bool) (l : list A) :
  existsb f (rev l) = existsb f l.
Proof.
  induction l as [|x l IH]; [reflexivity |].
  simpl. rewrite existsb_app, IH. simpl.
  rewrite orb_false_r. apply orb_comm.
Qed.

Lemma lstrip_nil_blank (s : pystr) : lstrip s = [] -> blank s.
Proof.
  induction s as [|c s IH]; intros H d Hd; [destruct Hd |].
  simpl in H. destruct (is_space c) eqn:Hc; [| discriminate].
  destruct Hd as [<- | Hd]; [exact Hc | exact (IH H d Hd)].
Qed.

Lemma lstrip_head (s : pystr) (c : codepoint) :
  head (lstrip s) = Some c -> is_space c = false.
Proof.
  induction s as [|d s IH]; [discriminate |].
  simpl. destruct (is_space d) eqn:Hd; [exact IH |].
  simpl. intros H. injection H as <-. exact Hd.
Qed.

Lemma lstrip_keeps_last (s : pystr) (c : codepoint) :
  is_space c = false -> last s = Some c -> last (lstrip s) = Some c.
Proof.
  intros Hc. induction s as [|d s IH]; [discriminate |].
  intros Hl. simpl. destruct (is_space d) eqn:Hd; [| exact Hl].
  destruct s as [|e s]; [simpl in Hl; congruence |].
  apply IH. exact Hl.
Qed.

Lemma blank_rev (s : pystr) : blank (rev s) -> blank s.
Proof. intros H c Hc. apply H, in_rev. rewrite rev_involutive. exact Hc. Qed.

Lemma py_strip_nil_blank (s : pystr) : py_strip s = [] -> blank s.
Proof.
  unfold py_strip, rstrip. intros H.
  assert (Hl : lstrip (rev (lstrip s)) = []).
  { rewrite <- (rev_involutive (lstrip (rev (lstrip s)))), H. reflexivity. }
  apply lstrip_nil_blank, blank_rev in Hl.
  apply lstrip_nil_blank.
  destruct (lstrip s) as [|c u] eqn:Hs; [reflexivity |].
  pose proof (lstrip_head s c) as Hh. rewrite Hs in Hh.
  specialize (Hh eq_refl). rewrite (Hl c (or_introl eq_refl)) in Hh.
  discriminate.
Qed.

Lemma last_rev {A} (l : list A) : last (rev l) = head l.
Proof. destruct l as [|x l]; [reflexivity |]. simpl. apply last_snoc. Qed.

Lemma head_rev {A} (l : list A) : head (rev l) = last l.
Proof. rewrite <- (last_rev (rev l)), rev_involutive. reflexivity. Qed.

(** What [strip] leaves, when it leaves anything, has no white space at
    either end. *)
Lemma py_strip_trimmed (s : pystr) : py_strip s <> [] -> trimmed (py_strip s).
Proof.
  intros Hne. split; [exact Hne |].
  unfold py_strip, rstrip in *.
  set (u := lstrip s) in *. set (v := lstrip (rev u)) in *.
  split; intros c Hc.
  - rewrite head_rev in Hc.
    destruct (head u) as [d|] eqn:Hu.
    + assert (Hd : is_space d = false) by (apply (lstrip_head s d); exact Hu).
      assert (Hl : last v = Some d).
      { apply lstrip_keeps_last; [exact Hd |]. rewrite last_rev. exact Hu. }
      congruence.
    + exfalso. apply Hne. destruct u; [reflexivity | discriminate].
  - rewrite last_rev in Hc. exact (lstrip_head (rev u) c Hc).
Qed.

(** X1: a Sinhala code point anywhere decides the target: the heuristic
    answers ['en'] on a concatenation exactly when it does on one of the two
    parts. *)
Theorem detect_language_app (a b : pystr) :
  _detect_language_and_get_target (a ++ b) = lit "en" <->
  _detect_language_and_get_target a = lit "en" \/
  _detect_language_and_get_target b = lit "en".
Proof.
  unfold _detect_language_and_get_target. rewrite existsb_app.
  destruct (existsb is_sinhala a), (existsb is_sinhala b); simpl;
    split; try tauto; try discriminate.
Qed.

(** X2: trimming never changes the heuristic's answer, so the target the
    handler picks for the trimmed text is the one the raw text would get. *)
Theorem detect_language_strip (t : pystr) :
  _detect_language_and_get_target (py_strip t) =
  _detect_language_and_get_target t.
Proof.
  unfold _detect_language_and_get_target, py_strip, rstrip.
  rewrite existsb_rev, existsb_sinhala_lstrip, existsb_rev,
    existsb_sinhala_lstrip.
  reflexivity.
Qed.

(** ** More on the translation client *)

Lemma configured_some (w : World) (client : Session) (key : pystr) :
  configured w = Some (client, key) ->
  translator_client (bot w) = Some client /\ TRANSLATOR_KEY w = Some key /\
  key <> [].
Proof.
  unfold configured.
  destruct (translator_client (bot w)) as [cl|]; [| discriminate].
  destruct (TRANSLATOR_KEY w) as [[|c k]|]; try discriminate.
  intros H. injection H as <- <-. repeat split. discriminate.
Qed.

Lemma configured_none (w : World) :
  configured w = None ->
  translator_client (bot w) = None \/ truthy_str (TRANSLATOR_KEY w) = false.
Proof.
  unfold configured.
  destruct (translator_client (bot w)) as [cl|]; [| left; reflexivity].
  destruct (TRANSLATOR_KEY w) as [[|c k]|]; try discriminate;
    right; reflexivity.
Qed.

(** Every run of [translate_text], in one equation. *)
Lemma translate_text_run (rt : Runtime) (w : World) (text target : pystr)
  (tr : list event) :
  translate_text rt w text target tr =
    match configured w with
    | None => (Return not_configured, tr ++ [CallTranslate text target])
    | Some (client, key) =>
        let r := translate_http_request w key text target in
        match upstream rt client r target with
        | Return s =>
            (Return s, tr ++ [CallTranslate text target; HttpPost r])
        | Raise e =>
            (Return (failure_prefix ++ str_of_exn rt e),
             tr ++ [CallTranslate text target; HttpPost r;
                    LogError (lit "Translation error: " ++ str_of_exn rt e)])
        end
    end.
Proof.
  destruct (configured w) as [[client key]|] eqn:Hc.
  - destruct (configured_some w client key Hc) as [H1 [H2 H3]].
    rewrite (translate_text_configured rt w client key text target tr H1 H2 H3).
    cbv zeta. unfold upstream.
    match goal with
    | |- match ?x with _ => _ end = _ => destruct x
    end; [reflexivity |].
    rewrite <- app_assoc. reflexivity.
  - apply translate_text_unconfigured, configured_none, Hc.
Qed.

Lemma drop_app_exact {A} (l k : list A) : drop (length l) (l ++ k) = k.
Proof. apply drop_app_length. Qed.

(** X3: a call of [translate_text] makes no HTTP request when the client or
    the key is missing or the key is empty, and otherwise exactly one: a POST
    to the endpoint's [/translate] with the target as [to] and the text as
    the body's single item. *)
Theorem translate_text_http_requests (rt : Runtime) (w : World)
  (text target : pystr) (tr : list event) :
  List.filter is_http_event
    (drop (length tr) (snd (translate_text rt w text target tr))) =
    match configured w with
    | None => []
    | Some (client, key) =>
        [ HttpPost
            {| req_url := TRANSLATOR_ENDPOINT w ++ lit "/translate";
               req_params :=
                 [ (lit "api-version", lit "3.0"); (lit "to", target) ];
               req_headers :=
                 [ (lit "Ocp-Apim-Subscription-Key", key);
                   (lit "Ocp-Apim-Subscription-Region", TRANSLATOR_REGION w);
                   (lit "Content-Type", lit "application/json") ];
               req_json := PyList [ PyDict [ (lit "text", PyStr text) ] ] |} ]
    end.
Proof.
  rewrite translate_text_run.
  destruct (configured w) as [[client key]|]; cbv zeta.
  - destruct (upstream rt client _ target); simpl;
      rewrite drop_app_exact; reflexivity.
  - simpl. rewrite drop_app_exact. reflexivity.
Qed.

Lemma failure_prefix_not_translated (rt : Runtime) (d x : value)
  (target rest : pystr) :
  translated_message rt d target x <> failure_prefix ++ rest.
Proof. unfold translated_message. discriminate. Qed.

Lemma read_reply_form (rt : Runtime) (target : pystr) (b : value) (s : pystr) :
  read_reply rt target b = Return s ->
  exists d x, s = translated_message rt d target x.
Proof.
  intros H.
  destruct (read_reply_well_formed rt target b
              (read_reply_returns rt target b s H)) as [d [x Hdx]].
  exists d, x. congruence.
Qed.

Lemma upstream_form (rt : Runtime) (client : Session) (r : HttpRequest)
  (target s : pystr) :
  upstream rt client r target = Return s ->
  exists d x, s = translated_message rt d target x.
Proof.
  unfold upstream. destruct (post client r) as [resp | e]; [| discriminate].
  destruct (_ && _)%Z; [discriminate |].
  destruct (json resp) as [b | e]; [| discriminate].
  simpl. apply read_reply_form.
Qed.

(** X4: [translate_text] logs an error exactly when it answers with the
    failure string: a translated message and the not-configured answer are
    never logged, and no failure goes unlogged. *)
Theorem translate_text_logs_failures (rt : Runtime) (w : World)
  (text target : pystr) (tr : list event) :
  (exists msg,
     In (LogError msg)
       (drop (length tr) (snd (translate_text rt w text target tr)))) <->
  (exists detail,
     fst (translate_text rt w text target tr) =
       Return (failure_prefix ++ detail)).
Proof.
  rewrite translate_text_run.
  destruct (configured w) as [[client key]|]; cbv zeta.
  - destruct (upstream rt client _ target) as [s | e] eqn:Hup; cbn [snd fst];
      rewrite drop_app_exact.
    + split.
      * intros [msg [H | [H | []]]]; discriminate.
      * intros [detail H].
        assert (Hs : s = failure_prefix ++ detail) by congruence.
        destruct (upstream_form rt client _ target _ Hup) as [d [x Hdx]].
        rewrite Hs in Hdx.
        destruct (failure_prefix_not_translated rt d x target detail
                    (eq_sym Hdx)).
    + split; [intros _; eauto |].
      intros _. eexists. right. right. left. reflexivity.
  - cbn [snd fst]. rewrite drop_app_exact. split.
    + intros [msg [H | []]]. discriminate.
    + intros [detail H]. discriminate.
Qed.

(** X5: on a reply that is not an error status, the answer is built from
    the first translation of the first item only, and the language shown is
    [detectedLanguage.language] when the reply has it and ['unknown']
    otherwise. *)
Theorem translate_text_reads_first_translation (rt : Runtime) (w : World)
  (client : Session) (key text target : pystr) (resp : Response)
  (fields tfields : list (pystr * value)) (rest trest : list value)
  (x language : value) (tr : list event) :
  configured w = Some (client, key) ->
  post client (translate_http_request w key text target) = Return resp ->
  ~ error_status (status_code resp) ->
  json resp = Return (PyList (PyDict fields :: rest)) ->
  dict_lookup (lit "translations") fields
    = Some (PyList (PyDict tfields :: trest)) ->
  dict_lookup (lit "text") tfields = Some x ->
  named_language fields = Some language ->
  fst (translate_text rt w text target tr) =
    Return (lit "**Translated** (" ++ format_value rt language
            ++ [32; 226; 8224; 8217; 32]%N ++ target ++ lit "):" ++ [10%N]
            ++ format_value rt x).
Proof.
  intros Hc Hpost Hst Hjson Htr Hx Hlang.
  rewrite translate_text_run, Hc. cbv zeta. unfold upstream. rewrite Hpost.
  destruct ((400 <=? status_code resp) && (status_code resp <? 600))%Z eqn:Hs.
  { exfalso. apply Hst, error_status_test, Hs. }
  rewrite Hjson. unfold read_reply. simpl. rewrite Htr. simpl. rewrite Hx.
  simpl. unfold named_language in Hlang.
  destruct (dict_lookup (lit "detectedLanguage") fields) as [det|].
  - destruct det as [| | | | | |d]; try discriminate. simpl.
    destruct (dict_lookup (lit "language") d); simpl;
      injection Hlang as <-; reflexivity.
  - simpl. injection Hlang as <-. reflexivity.
Qed.

(** A reply with two translations and no detected language. *)
Lemma translate_text_reads_first_translation_witness :
  fst (translate_text sample_runtime
         (sample_world
            (Some (answering 200
                     (Return (reply_without_language (lit "ayubowan") (lit "hello")))))
            (Some (lit "k")))
         (lit "hi") (lit "si") []) =
    Return (lit "**Translated** (unknown " ++ [226; 8224; 8217]%N
            ++ lit " si):" ++ [10%N] ++ lit "ayubowan").
Proof.
  refine (translate_text_reads_first_translation sample_runtime
            (sample_world
               (Some (answering 200
                        (Return (reply_without_language (lit "ayubowan") (lit "hello")))))
               (Some (lit "k")))
            (answering 200
               (Return (reply_without_language (lit "ayubowan") (lit "hello"))))
            (lit "k") (lit "hi") (lit "si")
            {| status_code := 200; reason := lit "reason";
               url := lit "https://api.cognitive.microsofttranslator.com/translate";
               json := Return (reply_without_language (lit "ayubowan") (lit "hello")) |}
            _ _ _ _ (PyStr (lit "ayubowan")) (PyStr (lit "unknown")) []
            eq_refl eq_refl _ eq_refl eq_refl eq_refl eq_refl).
  unfold error_status. simpl. lia.
Defined.

(** ** More on the message handler *)

(** The translating branch of the handler, in one equation. *)
Lemma on_message_activity_translating (rt : Runtime) (w : World)
  (ctx : TurnContext) (t : pystr) (tr : list event) :
  activity_text (activity ctx) = Some t ->
  py_strip t <> [] ->
  str_in_list (py_lower rt (py_strip t)) help_keywords = false ->
  let s := py_strip t in
  let target := _detect_language_and_get_target s in
  let asked := tr ++ [CallHandler "on_message_activity" (activity ctx);
                      CallDetect s] in
  let typed := asked ++ [SendActivity typing_activity] in
  on_message_activity rt w ctx tr =
    match send_outcome w asked typing_activity with
    | Some e => (Raise e, typed)
    | None =>
        match translate_text rt w s target typed with
        | (Return reply, tr') =>
            (send_result w tr' (MessageFactory_text reply),
             tr' ++ [SendActivity (MessageFactory_text reply)])
        | (Raise e, tr') => (Raise e, tr')
        end
    end.
Proof.
  intros Ht Hne Hkw.
  rewrite (on_message_activity_stripped rt w ctx t tr Ht). cbv zeta.
  destruct (py_strip t) as [|c u] eqn:Hs; [congruence |].
  rewrite Hkw.
  unfold bind at 1 2, emit at 1, ret at 1. rewrite <- app_assoc. simpl app.
  unfold bind at 1, send_activity at 1.
  destruct (send_outcome w _ typing_activity) as [e|];
    rewrite <- !app_assoc; simpl app; [reflexivity |].
  unfold bind at 1.
  destruct (translate_text rt w (c :: u) _ _) as [[reply | e] tr'];
    reflexivity.
Qed.

(** X6: for a text that is neither blank nor a help keyword, on a channel
    that delivers, the handler runs the heuristic on the trimmed text, sends
    the typing indicator, calls [translate_text] once with the trimmed text
    and the heuristic's target, sends what it returned as the reply, and
    returns; exactly two activities are sent, the indicator first. *)
Theorem on_message_activity_translation_path (rt : Runtime) (w : World)
  (ctx : TurnContext) (t : pystr) (tr : list event) :
  activity_text (activity ctx) = Some t ->
  ~ blank t ->
  str_in_list (py_lower rt (py_strip t)) help_keywords = false ->
  delivers w ->
  let s := py_strip t in
  let target := _detect_language_and_get_target s in
  let typed := tr ++ [CallHandler "on_message_activity" (activity ctx);
                      CallDetect s; SendActivity typing_activity] in
  exists reply,
    fst (translate_text rt w s target typed) = Return reply /\
    on_message_activity rt w ctx tr =
      (Return tt,
       snd (translate_text rt w s target typed)
       ++ [SendActivity (MessageFactory_text reply)]) /\
    sent_activities
      (drop (length tr) (snd (on_message_activity rt w ctx tr)))
      = [typing_activity; MessageFactory_text reply].
Proof.
  intros Ht Hnb Hkw Hsend s target typed.
  assert (Hne : py_strip t <> []).
  { intros H. apply Hnb, py_strip_nil_blank, H. }
  pose proof (on_message_activity_translating rt w ctx t tr Ht Hne Hkw) as Hrun.
  cbv zeta in Hrun. rewrite Hsend in Hrun.
  rewrite <- app_assoc in Hrun. simpl app in Hrun.
  fold s target typed in Hrun.
  pose proof (translate_text_run rt w s target typed) as Htt.
  assert (Hshape : exists reply rest,
             translate_text rt w s target typed =
               (Return reply, typed ++ CallTranslate s target :: rest) /\
             sent_activities rest = []).
  { rewrite Htt. destruct (configured w) as [[client key]|]; cbv zeta.
    - destruct (upstream rt client _ target); eexists; eexists;
        (split; [reflexivity | reflexivity]).
    - eexists; eexists; (split; [reflexivity | reflexivity]). }
  destruct Hshape as [reply [rest [Hshape Hrest]]].
  exists reply. rewrite Hrun, Hshape. cbn [fst snd].
  unfold send_result. rewrite Hsend.
  split; [reflexivity | split; [reflexivity |]].
  unfold typed. rewrite <- !app_assoc, drop_app_exact. simpl.
  assert (Hsa : forall l a, sent_activities (l ++ [SendActivity a])
                            = sent_activities l ++ [a]).
  { clear. intros l a. induction l as [|ev l IH]; [reflexivity |].
    destruct ev; simpl; rewrite IH; reflexivity. }
  rewrite Hsa, Hrest. reflexivity.
Qed.

(** A greeting translated over a working channel. *)
Lemma on_message_activity_translation_path_witness :
  exists reply,
    fst (translate_text sample_runtime
           (sample_world (Some (answering 200 (Return (example_reply (lit "X")))))
              (Some (lit "k")))
           (lit "Hello") (lit "si")
           [CallHandler "on_message_activity" (MessageFactory_text (lit " Hello "));
            CallDetect (lit "Hello"); SendActivity typing_activity])
      = Return reply /\
    sent_activities
      (snd (on_message_activity sample_runtime
              (sample_world (Some (answering 200 (Return (example_reply (lit "X")))))
                 (Some (lit "k")))
              {| activity := MessageFactory_text (lit " Hello ") |} []))
      = [typing_activity; MessageFactory_text reply].
Proof.
  destruct (on_message_activity_translation_path sample_runtime
              (sample_world (Some (answering 200 (Return (example_reply (lit "X")))))
                 (Some (lit "k")))
              {| activity := MessageFactory_text (lit " Hello ") |}
              (lit " Hello ") [] eq_refl
              ltac:(intros H; discriminate (H 72%N ltac:(simpl; tauto)))
              eq_refl ltac:(intros ? ?; reflexivity))
    as [reply [H1 [_ H3]]].
  exists reply. split; [exact H1 | exact H3].
Defined.

(** X7: when sending the typing indicator fails, the exception leaves the
    handler at once: [translate_text] is not called, no HTTP request is made
    and no reply is sent. *)
Theorem on_message_activity_typing_failure (rt : Runtime) (w : World)
  (ctx : TurnContext) (t : pystr) (e : exn) (tr : list event) :
  activity_text (activity ctx) = Some t ->
  ~ blank t ->
  str_in_list (py_lower rt (py_strip t)) help_keywords = false ->
  send_outcome w
    (tr ++ [CallHandler "on_message_activity" (activity ctx);
            CallDetect (py_strip t)]) typing_activity = Some e ->
  on_message_activity rt w ctx tr =
    (Raise e,
     tr ++ [CallHandler "on_message_activity" (activity ctx);
            CallDetect (py_strip t); SendActivity typing_activity]).
Proof.
  intros Ht Hnb Hkw Hsend.
  assert (Hne : py_strip t <> []).
  { intros H. apply Hnb, py_strip_nil_blank, H. }
  pose proof (on_message_activity_translating rt w ctx t tr Ht Hne Hkw) as Hrun.
  cbv zeta in Hrun. rewrite Hsend in Hrun. rewrite Hrun, <- app_assoc.
  reflexivity.
Qed.

(** A greeting on a channel that is down. *)
Lemma on_message_activity_typing_failure_witness :
  on_message_activity sample_runtime
    (offline_world (Some (answering 200 (Return (example_reply (lit "X")))))
       (Some (lit "k")))
    {| activity := MessageFactory_text (lit "Hello") |} [] =
    (Raise (LibraryError "ConnectionError" (lit "channel unreachable")),
     [CallHandler "on_message_activity" (MessageFactory_text (lit "Hello"));
      CallDetect (lit "Hello"); SendActivity typing_activity]).
Proof.
  refine (on_message_activity_typing_failure sample_runtime
            (offline_world (Some (answering 200 (Return (example_reply (lit "X")))))
               (Some (lit "k")))
            {| activity := MessageFactory_text (lit "Hello") |}
            (lit "Hello") _ [] eq_refl _ eq_refl eq_refl).
  intros H. discriminate (H 72%N ltac:(simpl; tauto)).
Defined.

Lemma translate_text_shape (rt : Runtime) (w : World) (text target : pystr)
  (tr : list event) :
  exists reply rest,
    translate_text rt w text target tr =
      (Return reply, tr ++ CallTranslate text target :: rest) /\
    (forall ev, In ev rest ->
                (exists r, ev = HttpPost r) \/ (exists m, ev = LogError m)).
Proof.
  rewrite translate_text_run.
  destruct (configured w) as [[client key]|]; cbv zeta.
  - destruct (upstream rt client _ target); eexists; eexists;
      (split; [reflexivity |]); intros ev Hev; simpl in Hev;
      repeat (destruct Hev as [<- | Hev]; [eauto |]); destruct Hev.
  - eexists; eexists; (split; [reflexivity |]). intros ev [].
Qed.

(** Every run of the handler on an activity with a text: what it adds to
    the trace after its entry. *)
Lemma on_message_activity_cases (rt : Runtime) (w : World) (ctx : TurnContext)
  (t : pystr) (tr : list event) :
  activity_text (activity ctx) = Some t ->
  let s := py_strip t in
  let target := _detect_language_and_get_target s in
  exists new,
    snd (on_message_activity rt w ctx tr) =
      tr ++ CallHandler "on_message_activity" (activity ctx) :: new /\
    ((s = [] /\ new = [SendActivity (MessageFactory_text prompt_text)]) \/
     (s <> [] /\ str_in_list (py_lower rt s) help_keywords = true /\
      new = [SendActivity (MessageFactory_text help_text)]) \/
     (s <> [] /\ str_in_list (py_lower rt s) help_keywords = false /\
      (new = [CallDetect s; SendActivity typing_activity] \/
       exists reply rest,
         new = CallDetect s :: SendActivity typing_activity
               :: CallTranslate s target :: rest
               ++ [SendActivity (MessageFactory_text reply)] /\
         (forall ev, In ev rest ->
                     (exists r, ev = HttpPost r) \/ (exists m, ev = LogError m))))).
Proof.
  intros Ht. cbv zeta.
  destruct (py_strip t) as [|c u] eqn:Hs.
  - exists [SendActivity (MessageFactory_text prompt_text)].
    rewrite (on_message_activity_stripped rt w ctx t tr Ht). cbv zeta.
    rewrite Hs. unfold send_activity. cbn [snd].
    rewrite <- app_assoc. split; [reflexivity |]. left. split; reflexivity.
  - assert (Hne : py_strip t <> []) by (rewrite Hs; discriminate).
    destruct (str_in_list (py_lower rt (py_strip t)) help_keywords) eqn:Hkw.
    + exists [SendActivity (MessageFactory_text help_text)].
      rewrite (on_message_activity_stripped rt w ctx t tr Ht). cbv zeta.
      rewrite Hs. rewrite Hs in Hkw. rewrite Hkw.
      unfold send_activity. cbn [snd]. rewrite <- app_assoc.
      split; [reflexivity |]. right; left.
      repeat split; discriminate.
    + rewrite (on_message_activity_translating rt w ctx t tr Ht Hne Hkw).
      cbv zeta. rewrite Hs in *.
      destruct (send_outcome w _ typing_activity) as [e|].
      * eexists. cbn [snd]. rewrite <- !app_assoc. simpl app.
        split; [reflexivity |]. right; right.
        repeat split; [exact Hne | exact Hkw |]. left. reflexivity.
      * destruct (translate_text_shape rt w (c :: u)
                    (_detect_language_and_get_target (c :: u))
                    ((tr ++ [CallHandler "on_message_activity" (activity ctx);
                             CallDetect (c :: u)])
                     ++ [SendActivity typing_activity]))
          as [reply [rest [Hshape Hrest]]].
        rewrite Hshape. eexists. cbn [snd]. rewrite <- !app_assoc. simpl app.
        split; [reflexivity |]. right; right.
        repeat split; [exact Hne | exact Hkw |]. right.
        exists reply, rest. split; [reflexivity | exact Hrest].
Qed.

Lemma blank_nil_iff (t : pystr) : py_strip t = [] <-> blank t.
Proof. split; [apply py_strip_nil_blank | apply py_strip_blank]. Qed.

(** X8: whatever the channel and the translator do, every call of
    [translate_text] the handler makes is for the trimmed text of the
    activity, which is not empty and has no white space at either end, and
    for the target the heuristic gives that text, ['en'] or ['si']. *)
Theorem on_message_activity_translate_calls (rt : Runtime) (w : World)
  (ctx : TurnContext) (tr : list event) (x target : pystr) :
  In (CallTranslate x target)
    (drop (length tr) (snd (on_message_activity rt w ctx tr))) ->
  exists t,
    activity_text (activity ctx) = Some t /\
    x = py_strip t /\ trimmed x /\
    target = _detect_language_and_get_target x /\
    (target = lit "en" \/ target = lit "si").
Proof.
  intros Hin.
  destruct (activity_text (activity ctx)) as [t|] eqn:Ht.
  - destruct (on_message_activity_cases rt w ctx t tr Ht) as [new [Hrun Hcases]].
    cbv zeta in Hcases. rewrite Hrun, drop_app_exact in Hin.
    destruct Hin as [Hin | Hin]; [discriminate |].
    destruct Hcases as [[_ ->] | [[_ [_ ->]] | [Hne [_ Hnew]]]].
    + destruct Hin as [Hin | []]. discriminate.
    + destruct Hin as [Hin | []]. discriminate.
    + assert (Hx : x = py_strip t /\
                   target = _detect_language_and_get_target (py_strip t)).
      { destruct Hnew as [-> | [reply [rest [-> Hrest]]]].
        - destruct Hin as [Hin | [Hin | []]]; discriminate.
        - destruct Hin as [Hin | [Hin | [Hin | Hin]]]; try discriminate.
          + injection Hin as <- <-. split; reflexivity.
          + apply in_app_or in Hin as [Hin | [Hin | []]]; [| discriminate].
            destruct (Hrest _ Hin) as [[r Hr] | [m Hm]]; discriminate. }
      destruct Hx as [-> ->]. exists t.
      repeat split; try apply (py_strip_trimmed t Hne).
      unfold _detect_language_and_get_target.
      destruct (existsb is_sinhala (py_strip t)); [left | right]; reflexivity.
  - exfalso. revert Hin.
    unfold on_message_activity, bind, emit, lift, text_strip.
    rewrite Ht. cbn [snd]. rewrite drop_app_exact.
    intros [Hin | []]. discriminate.
Qed.

(** The one call made for the message [" Hello "]. *)
Lemma on_message_activity_translate_calls_witness :
  exists t,
    Some (lit " Hello ") = Some t /\
    lit "Hello" = py_strip t /\ trimmed (lit "Hello") /\
    lit "si" = _detect_language_and_get_target (lit "Hello") /\
    (lit "si" = lit "en" \/ lit "si" = lit "si").
Proof.
  refine (on_message_activity_translate_calls sample_runtime
            (sample_world None None)
            {| activity := MessageFactory_text (lit " Hello ") |} []
            (lit "Hello") (lit "si") _).
  vm_compute. tauto.
Defined.

(** X9: on an activity with a text, the heuristic is run exactly when the
    text is not blank and, trimmed and lower-cased, is not a help keyword. *)
Theorem on_message_activity_detects_iff (rt : Runtime) (w : World)
  (ctx : TurnContext) (t : pystr) (tr : list event) :
  activity_text (activity ctx) = Some t ->
  (existsb is_detect_event
     (drop (length tr) (snd (on_message_activity rt w ctx tr))) = true <->
   ~ blank t /\
   str_in_list (py_lower rt (py_strip t)) help_keywords = false).
Proof.
  intros Ht.
  destruct (on_message_activity_cases rt w ctx t tr Ht) as [new [Hrun Hcases]].
  cbv zeta in Hcases. rewrite Hrun, drop_app_exact.
  destruct Hcases as [[Hs ->] | [[Hne [Hkw ->]] | [Hne [Hkw Hnew]]]].
  - simpl. split; [discriminate |].
    intros [Hnb _]. destruct (Hnb (proj1 (blank_nil_iff t) Hs)).
  - simpl. split; [discriminate |]. intros [_ H]. congruence.
  - split.
    + intros _. split; [| exact Hkw].
      intros Hb. apply Hne, blank_nil_iff, Hb.
    + intros _. destruct Hnew as [-> | [reply [rest [-> _]]]]; reflexivity.
Qed.

(** The heuristic runs for ["Hello"] and not for ["help"]. *)
Lemma on_message_activity_detects_iff_witness :
  existsb is_detect_event
    (snd (on_message_activity sample_runtime (sample_world None None)
            {| activity := MessageFactory_text (lit "Hello") |} [])) = true /\
  ~ (~ blank (lit "help") /\
     str_in_list (py_lower sample_runtime (py_strip (lit "help"))) help_keywords
       = false).
Proof.
  split.
  - apply (proj2 (on_message_activity_detects_iff sample_runtime
                    (sample_world None None)
                    {| activity := MessageFactory_text (lit "Hello") |}
                    (lit "Hello") [] eq_refl)).
    split; [| reflexivity].
    intros H. discriminate (H 72%N ltac:(simpl; tauto)).
  - intros H.
    apply (proj2 (on_message_activity_detects_iff sample_runtime
                    (sample_world None None)
                    {| activity := MessageFactory_text (lit "help") |}
                    (lit "help") [] eq_refl)) in H.
    vm_compute in H. discriminate.
Defined.

Lemma on_message_activity_delivered (rt : Runtime) (w : World)
  (ctx : TurnContext) (t : pystr) (tr : list event) :
  activity_text (activity ctx) = Some t ->
  delivers w ->
  fst (on_message_activity rt w ctx tr) = Return tt.
Proof.
  intros Ht Hsend.
  destruct (py_strip t) as [|c u] eqn:Hs.
  - rewrite (on_message_activity_stripped rt w ctx t tr Ht). cbv zeta.
    rewrite Hs. unfold send_activity. rewrite Hsend. reflexivity.
  - assert (Hne : py_strip t <> []) by (rewrite Hs; discriminate).
    destruct (str_in_list (py_lower rt (py_strip t)) help_keywords) eqn:Hkw.
    + rewrite (on_message_activity_stripped rt w ctx t tr Ht). cbv zeta.
      rewrite Hs. rewrite Hs in Hkw. rewrite Hkw.
      unfold send_activity. rewrite Hsend. reflexivity.
    + rewrite (on_message_activity_translating rt w ctx t tr Ht Hne Hkw).
      cbv zeta. rewrite Hsend.
      match goal with
      | |- context [translate_text rt w ?s ?g ?l] =>
          destruct (translate_text_shape rt w s g l) as [reply [rest [-> _]]]
      end.
      unfold send_result. rewrite Hsend. reflexivity.
Qed.

(** ** More on added members *)

Lemma sent_activities_app (l k : list event) :
  sent_activities (l ++ k) = sent_activities l ++ sent_activities k.
Proof.
  induction l as [|ev l IH]; [reflexivity |].
  destruct ev; simpl; rewrite IH; reflexivity.
Qed.

Lemma sent_activities_welcomes {A} (l : list A) :
  sent_activities
    (map (fun _ => SendActivity (MessageFactory_text welcome_text)) l)
  = map (fun _ => MessageFactory_text welcome_text) l.
Proof. induction l as [|x l IH]; [reflexivity |]. simpl. rewrite IH. reflexivity. Qed.

(** X10: given a recipient on the activity and a channel that delivers,
    [on_members_added_activity] sends the welcome text once for each added
    member whose id differs from the recipient's and nothing for the others,
    returns, and neither runs the heuristic nor reaches the translator. *)
Theorem on_members_added_activity_one_each (w : World) (ctx : TurnContext)
  (r : ChannelAccount) (members : list ChannelAccount) (tr : list event) :
  activity_recipient (activity ctx) = Some r ->
  delivers w ->
  let new := drop (length tr)
               (snd (on_members_added_activity w members ctx tr)) in
  fst (on_members_added_activity w members ctx tr) = Return tt /\
  sent_activities new =
    map (fun _ => MessageFactory_text welcome_text) (newcomers r members) /\
  length (sent_activities new) = length (newcomers r members) /\
  existsb (fun ev => is_translation_event ev || is_detect_event ev) new = false.
Proof.
  intros Hr Hsend new. subst new.
  rewrite (on_members_added_activity_welcomes w ctx r members tr Hr Hsend).
  cbn [fst snd]. rewrite drop_app_exact.
  cbn [sent_activities]. rewrite sent_activities_welcomes, length_map.
  repeat split. simpl.
  induction (newcomers r members) as [|m l IH]; [reflexivity | exact IH].
Qed.

(** Two members added, one of them the bot itself. *)
Lemma on_members_added_activity_one_each_witness :
  sent_activities
    (snd (on_members_added_activity (sample_world None None)
            [ {| account_id := Some (lit "bot") |};
              {| account_id := Some (lit "user-1") |} ]
            {| activity := members_added_activity |} []))
  = [ MessageFactory_text welcome_text ].
Proof.
  refine (proj1 (proj2 (on_members_added_activity_one_each
            (sample_world None None) {| activity := members_added_activity |}
            {| account_id := Some (lit "bot") |}
            [ {| account_id := Some (lit "bot") |};
              {| account_id := Some (lit "user-1") |} ] [] eq_refl _))).
  intros tr a. reflexivity.
Defined.

(** X11: without a recipient on the activity the comparison of ids raises
    [AttributeError] at the first added member, before anything is sent; only
    an empty list of members gets through. *)
Theorem on_members_added_activity_no_recipient (w : World) (ctx : TurnContext)
  (members : list ChannelAccount) (tr : list event) :
  activity_recipient (activity ctx) = None ->
  on_members_added_activity w members ctx tr =
    (match members with
     | [] => Return tt
     | _ :: _ => Raise (AttributeError "NoneType" "id")
     end,
     tr ++ [CallHandler "on_members_added_activity" (activity ctx)]).
Proof.
  intros Hr. unfold on_members_added_activity, bind at 1, emit.
  cbv beta iota. destruct members as [|m members]; [reflexivity |].
  cbn [for_each]. unfold bind at 1. rewrite bind_lift.
  unfold recipient_id. rewrite Hr. reflexivity.
Qed.

(** A member added on an activity that names no recipient. *)
Lemma on_members_added_activity_no_recipient_witness :
  on_members_added_activity (sample_world None None)
    [ {| account_id := Some (lit "user-1") |} ]
    {| activity := MessageFactory_text (lit "hi") |} [] =
    (Raise (AttributeError "NoneType" "id"),
     [CallHandler "on_members_added_activity" (MessageFactory_text (lit "hi"))]).
Proof.
  exact (on_members_added_activity_no_recipient (sample_world None None)
           {| activity := MessageFactory_text (lit "hi") |}
           [ {| account_id := Some (lit "user-1") |} ] [] eq_refl).
Defined.

Lemma for_each_welcome_bound (w : World) (ctx : TurnContext)
  (r : ChannelAccount) (members : list ChannelAccount) (tr : list event) :
  activity_recipient (activity ctx) = Some r ->
  exists n,
    n <= length (newcomers r members) /\
    snd (for_each members (fun member =>
           let* rid := lift (recipient_id (activity ctx)) in
           if bool_decide (account_id member <> rid) then
             send_activity w ctx (MessageFactory_text welcome_text)
           else ret tt) tr)
    = tr ++ repeat (SendActivity (MessageFactory_text welcome_text)) n.
Proof.
  intros Hr. unfold recipient_id. rewrite Hr. revert tr.
  induction members as [|m members IH]; intros tr.
  - exists 0. split; [lia |]. simpl. rewrite app_nil_r. reflexivity.
  - cbn [for_each]. unfold bind at 1. rewrite bind_lift.
    unfold newcomers. rewrite filter_cons. fold (newcomers r members).
    destruct (decide (account_id m <> account_id r)) as [Hd | Hd].
    + rewrite (bool_decide_eq_true_2 _ Hd). unfold send_activity at 1.
      destruct (send_outcome w tr _) as [e|]; cbv beta iota.
      * exists 1. split; [simpl; lia | reflexivity].
      * destruct (IH (tr ++ [SendActivity (MessageFactory_text welcome_text)]))
          as [n [Hn Hrun]].
        exists (S n). split; [simpl; lia |].
        rewrite Hrun, <- app_assoc. reflexivity.
    + rewrite (bool_decide_eq_false_2 _ Hd). unfold ret at 1. cbv beta iota.
      destruct (IH tr) as [n [Hn Hrun]]. exists n. split; [lia | exact Hrun].
Qed.

(** X12: whatever the channel does, [on_members_added_activity] adds to the
    trace only its entry and sends of the welcome text, at most one for each
    added member other than the recipient. *)
Theorem on_members_added_activity_bound (w : World) (ctx : TurnContext)
  (r : ChannelAccount) (members : list ChannelAccount) (tr : list event) :
  activity_recipient (activity ctx) = Some r ->
  exists n,
    n <= length (newcomers r members) /\
    snd (on_members_added_activity w members ctx tr) =
      tr ++ CallHandler "on_members_added_activity" (activity ctx)
         :: repeat (SendActivity (MessageFactory_text welcome_text)) n.
Proof.
  intros Hr. unfold on_members_added_activity, bind at 1, emit.
  cbv beta iota.
  destruct (for_each_welcome_bound w ctx r members
              (tr ++ [CallHandler "on_members_added_activity" (activity ctx)]) Hr)
    as [n [Hn Hrun]].
  exists n. split; [exact Hn |]. rewrite Hrun, <- app_assoc. reflexivity.
Qed.

(** On a channel that is down the first welcome is attempted and the loop
    ends there, though two members were added. *)
Lemma on_members_added_activity_bound_witness :
  exists n,
    n <= 2 /\
    snd (on_members_added_activity (offline_world None None)
           [ {| account_id := Some (lit "user-1") |};
             {| account_id := Some (lit "user-2") |} ]
           {| activity := members_added_activity |} []) =
      CallHandler "on_members_added_activity" members_added_activity
        :: repeat (SendActivity (MessageFactory_text welcome_text)) n.
Proof.
  exact (on_members_added_activity_bound (offline_world None None)
           {| activity := members_added_activity |}
           {| account_id := Some (lit "bot") |}
           [ {| account_id := Some (lit "user-1") |};
             {| account_id := Some (lit "user-2") |} ] [] eq_refl).
Defined.

(** ** More on the endpoint *)

Lemma occurs_in_test (sub s : pystr) :
  occurs_in sub s -> str_contains sub s = true.
Proof. apply str_contains_spec. Qed.

(** X13: past the content-type check, an exception raised by [request.json]
    or by the deserializer is not inside the view's [try]: it leaves the view
    as it is, no JSON error answer is made of it, nothing is logged and the
    handler is not invoked. *)
Theorem messages_body_errors_leave_the_view (rt : Runtime) (w : World)
  (request : Request) (ct : pystr) (tr : list event) :
  headers request !! "Content-Type" = Some ct ->
  occurs_in (lit "application/json") ct ->
  (forall e,
     request_json request = Raise e ->
     messages rt w request tr = (Raise e, tr ++ [ReadJson])) /\
  (forall b e,
     request_json request = Return b ->
     deserialize w b = Raise e ->
     messages rt w request tr = (Raise e, tr ++ [ReadJson; Deserialize b])).
Proof.
  intros H Hc. apply occurs_in_test in Hc.
  pose proof (messages_accepted rt w request ct tr H Hc) as Hrun.
  split.
  - intros e He. rewrite Hrun, He. reflexivity.
  - intros b e Hb He. rewrite Hrun, Hb, He. reflexivity.
Qed.

(** A body that is a JSON list, which the deserializer rejects. *)
Lemma messages_body_errors_witness :
  messages sample_runtime (sample_world None None)
    (json_request (Some (lit "application/json")) (PyList [])) [] =
    (Raise (LibraryError "DeserializationError" (lit "not an object")),
     [ReadJson; Deserialize (PyList [])]).
Proof.
  refine (proj2 (messages_body_errors_leave_the_view sample_runtime
            (sample_world None None)
            (json_request (Some (lit "application/json")) (PyList []))
            (lit "application/json") [] eq_refl _)
          (PyList []) _ eq_refl eq_refl).
  exists [], []. reflexivity.
Defined.

(** X14: when the adapter's authentication fails, the request is answered
    500 with the error's text and the handler is never invoked: nothing is
    sent, detected or translated. *)
Theorem messages_authentication_failure (rt : Runtime) (w : World)
  (request : Request) (ct : pystr) (b : value) (a : Activity) (e : exn) :
  headers request !! "Content-Type" = Some ct ->
  occurs_in (lit "application/json") ct ->
  request_json request = Return b ->
  deserialize w b = Return a ->
  authenticate w a (auth_header_of request) = Some e ->
  messages rt w request [] =
    (Return (jsonify (PyDict [ (lit "error", PyStr (str_of_exn rt e)) ]), 500%Z),
     [ReadJson; Deserialize b;
      LogError (lit "Error processing activity: " ++ str_of_exn rt e)]).
Proof.
  intros H Hc Hb Ha He. apply occurs_in_test in Hc.
  rewrite (messages_accepted rt w request ct [] H Hc), Hb, Ha.
  unfold process_activity. rewrite He. reflexivity.
Qed.

(** A message sent to an adapter that rejects every request. *)
Lemma messages_authentication_failure_witness :
  messages sample_runtime unauthorized_world
    (json_request (Some (lit "application/json")) (message_json (lit "Hello"))) []
  = (Return (jsonify (PyDict [ (lit "error", PyStr (lit "Unauthorized")) ]), 500%Z),
     [ReadJson; Deserialize (message_json (lit "Hello"));
      LogError (lit "Error processing activity: Unauthorized")]).
Proof.
  refine (messages_authentication_failure sample_runtime unauthorized_world
            (json_request (Some (lit "application/json"))
               (message_json (lit "Hello")))
            (lit "application/json") (message_json (lit "Hello"))
            (message_activity (lit "Hello"))
            (LibraryError "PermissionError" (lit "Unauthorized"))
            eq_refl _ eq_refl eq_refl eq_refl).
  exists [], []. reflexivity.
Defined.

(** X15: a request without an [Authorization] header is treated exactly as
    the same request with an empty one. *)
Theorem messages_absent_authorization (rt : Runtime) (w : World)
  (request : Request) (tr : list event) :
  headers request !! "Authorization" = None ->
  messages rt w
    {| headers := <["Authorization" := []]> (headers request);
       request_json := request_json request |} tr
  = messages rt w request tr.
Proof.
  intros H. unfold messages, headers_getitem. cbn [headers request_json].
  rewrite lookup_insert_ne by discriminate.
  rewrite lookup_insert_eq, H. reflexivity.
Qed.

(** A request carrying only a content type. *)
Lemma messages_absent_authorization_witness :
  messages sample_runtime (sample_world None None)
    {| headers := <["Authorization" := []]>
                    {[ "Content-Type" := lit "application/json" ]};
       request_json := Return (message_json (lit "help")) |} []
  = messages sample_runtime (sample_world None None)
      (json_request (Some (lit "application/json")) (message_json (lit "help"))) [].
Proof.
  exact (messages_absent_authorization sample_runtime (sample_world None None)
           (json_request (Some (lit "application/json"))
              (message_json (lit "help"))) [] eq_refl).
Defined.

(** X16: a failing translator never turns into an HTTP error.  When the
    activity has a text, authentication passes, the channel delivers and the
    adapter has no synchronous response, the endpoint answers 200 with an
    empty body, whatever the translation service does or however the bot is
    configured. *)
Theorem messages_answers_200 (rt : Runtime) (w : World) (request : Request)
  (ct t : pystr) (b : value) (a : Activity) :
  headers request !! "Content-Type" = Some ct ->
  occurs_in (lit "application/json") ct ->
  request_json request = Return b ->
  deserialize w b = Return a ->
  activity_text a = Some t ->
  authenticate w a (auth_header_of request) = None ->
  delivers w ->
  (forall tr, invoke_response w a tr = None) ->
  fst (messages rt w request []) = Return (TextBody [], 200%Z).
Proof.
  intros H Hc Hb Ha Ht Hauth Hsend Hinv. apply occurs_in_test in Hc.
  rewrite (messages_accepted rt w request ct [] H Hc), Hb, Ha.
  unfold process_activity. rewrite Hauth. unfold bind at 1.
  pose proof (on_message_activity_delivered rt w {| activity := a |} t
                ([] ++ [ReadJson; Deserialize b]) Ht Hsend) as Hh.
  destruct (on_message_activity rt w {| activity := a |}
              ([] ++ [ReadJson; Deserialize b])) as [[[] | e] tr'];
    [| discriminate].
  rewrite Hinv. reflexivity.
Qed.

(** A greeting answered 200 though the translation service cannot be
    reached. *)
Lemma messages_answers_200_witness :
  fst (messages sample_runtime
         (sample_world (Some unreachable) (Some (lit "k")))
         (json_request (Some (lit "application/json"))
            (message_json (lit "Hello"))) [])
  = Return (TextBody [], 200%Z).
Proof.
  refine (messages_answers_200 sample_runtime
            (sample_world (Some unreachable) (Some (lit "k")))
            (json_request (Some (lit "application/json"))
               (message_json (lit "Hello")))
            (lit "application/json") (lit "Hello") (message_json (lit "Hello"))
            (message_activity (lit "Hello"))
            eq_refl _ eq_refl eq_refl eq_refl eq_refl _ _).
  - exists [], []. reflexivity.
  - intros tr a. reflexivity.
  - intros tr. reflexivity.
Defined.

(** X17: with an adapter that gives no synchronous response, every answer
    of the view has status 200, 415 or 500. *)
Theorem messages_status_codes (rt : Runtime) (w : World) (request : Request)
  (answer : response_body) (code : Z) (tr : list event) :
  (forall a tr', invoke_response w a tr' = None) ->
  messages rt w request [] = (Return (answer, code), tr) ->
  code = 200%Z \/ code = 415%Z \/ code = 500%Z.
Proof.
  intros Hinv Hrun.
  destruct (headers request !! "Content-Type") as [ct|] eqn:H.
  - destruct (str_contains (lit "application/json") ct) eqn:Hc.
    + rewrite (messages_accepted rt w request ct [] H Hc) in Hrun.
      destruct (request_json request) as [b | e]; [| discriminate].
      destruct (deserialize w b) as [a | e]; [| discriminate].
      assert (Hnone : forall r tr',
                process_activity w a (auth_header_of request)
                  (on_message_activity rt w) ([] ++ [ReadJson; Deserialize b])
                <> (Return (Some r), tr')).
      { intros r tr'. unfold process_activity.
        destruct (authenticate w a (auth_header_of request));
          [discriminate |].
        unfold bind.
        destruct (on_message_activity rt w {| activity := a |} _)
          as [[[] | e] tr'']; [| discriminate].
        rewrite Hinv. discriminate. }
      destruct (process_activity w a (auth_header_of request) _ _)
        as [[[r |] | e] tr'].
      * destruct (Hnone r tr' eq_refl).
      * injection Hrun as _ <- _. left. reflexivity.
      * injection Hrun as _ <- _. right; right. reflexivity.
    + rewrite (messages_rejected rt w request ct [] H Hc) in Hrun.
      injection Hrun as _ <- _. right; left. reflexivity.
  - rewrite (messages_no_content_type rt w request [] H) in Hrun.
    discriminate.
Qed.

(** The 415 of a plain-text request is one of the three. *)
Lemma messages_status_codes_witness :
  415%Z = 200%Z \/ 415%Z = 415%Z \/ 415%Z = 500%Z.
Proof.
  refine (messages_status_codes sample_runtime (sample_world None None)
            (json_request (Some (lit "text/plain")) (message_json (lit "help")))
            (jsonify (PyDict [ (lit "error", PyStr (lit "Invalid content type")) ]))
            415%Z [] _ eq_refl).
  intros a tr'. reflexivity.
Defined.

(** ** Start-up *)

Lemma missing_vars_spec (environ : gmap string pystr) :
  missing_vars environ =
    if truthy_str (environ !! "AZURE_TRANSLATOR_KEY") then []
    else [ "AZURE_TRANSLATOR_KEY" ].
Proof.
  unfold missing_vars, required_vars. simpl.
  destruct (truthy_str (environ !! "AZURE_TRANSLATOR_KEY")); reflexivity.
Qed.

Lemma main_serving_needs_key (py_int : pystr -> pyresult Z)
  (environ : gmap string pystr) (host : pystr) (port : Z) :
  fst (main py_int environ) = Return (Serving host port) ->
  truthy_str (environ !! "AZURE_TRANSLATOR_KEY") = true.
Proof.
  unfold main. rewrite missing_vars_spec.
  destruct (truthy_str (environ !! "AZURE_TRANSLATOR_KEY"));
    [reflexivity | discriminate].
Qed.



Lemma Return_inj {A} (a b : A) : Return a = Return b -> a = b.
Proof. intros H. injection H as H. exact H. Qed.

Lemma not_configured_not_failure (rest : pystr) :
  failure_prefix ++ rest <> not_configured.
Proof. discriminate. Qed.

Lemma not_configured_not_translated (rt : Runtime) (d x : value) (target : pystr) :
  translated_message rt d target x <> not_configured.
Proof. unfold translated_message. discriminate. Qed.

(** X19: when the program has started the listener, the settings loaded
    from the same environment carry the key, so a bot that has a client never
    answers that the service is not configured: every call of
    [translate_text] posts exactly one request, to the configured endpoint or
    to the default one when [AZURE_TRANSLATOR_ENDPOINT] is not set. *)
Theorem main_started_is_configured (rt : Runtime)
  (py_int : pystr -> pyresult Z) (environ : gmap string pystr) (w : World)
  (client : Session) (host : pystr) (port : Z) (text target : pystr)
  (tr : list event) :
  fst (main py_int environ) = Return (Serving host port) ->
  translator_client (bot w) = Some client ->
  let w' := load_settings environ w in
  exists key,
    environ !! "AZURE_TRANSLATOR_KEY" = Some key /\
    configured w' = Some (client, key) /\
    fst (translate_text rt w' text target tr) <> Return not_configured /\
    List.filter is_http_event
      (drop (length tr) (snd (translate_text rt w' text target tr))) =
      [ HttpPost (translate_http_request w' key text target) ] /\
    req_url (translate_http_request w' key text target) =
      environ_get environ "AZURE_TRANSLATOR_ENDPOINT"
        (lit "https://api.cognitive.microsofttranslator.com")
      ++ lit "/translate".
Proof.
  intros Hmain Hclient w'.
  assert (Hkey : truthy_str (environ !! "AZURE_TRANSLATOR_KEY") = true).
  { exact (main_serving_needs_key py_int environ host port Hmain). }
  destruct (environ !! "AZURE_TRANSLATOR_KEY") as [[|c key]|] eqn:Hk;
    try discriminate.
  exists (c :: key).
  assert (Hconf : configured w' = Some (client, c :: key)).
  { unfold configured, w', load_settings. cbn [bot TRANSLATOR_KEY].
    rewrite Hclient, Hk. reflexivity. }
  split; [reflexivity |]. split; [exact Hconf |].
  rewrite translate_text_run, Hconf. cbv zeta.
  destruct (upstream rt client _ target) as [s | e] eqn:Hup; cbn [fst snd];
    rewrite drop_app_exact.
  - split; [| split; reflexivity].
    destruct (upstream_form rt client _ target s Hup) as [d [x ->]].
    intros H. apply Return_inj in H.
    exact (not_configured_not_translated rt d x target H).
  - split; [| split; reflexivity].
    intros H. apply Return_inj in H.
    exact (not_configured_not_failure _ H).
Qed.

(** Started with only the key set, a bot whose translator cannot be
    reached answers with the failure, not with the not-configured text. *)
Lemma main_started_is_configured_witness :
  fst (translate_text sample_runtime
         (load_settings {[ "AZURE_TRANSLATOR_KEY" := lit "k" ]}
            (sample_world (Some unreachable) None))
         (lit "Hello") (lit "si") [])
  <> Return not_configured.
Proof.
  assert (Hmain : fst (main digits_int {[ "AZURE_TRANSLATOR_KEY" := lit "k" ]})
                  = Return (Serving (lit "0.0.0.0") 3978%Z)) by reflexivity.
  destruct (main_started_is_configured sample_runtime digits_int
              {[ "AZURE_TRANSLATOR_KEY" := lit "k" ]}
              (sample_world (Some unreachable) None) unreachable
              (lit "0.0.0.0") 3978%Z (lit "Hello") (lit "si") [] Hmain eq_refl)
    as [key [_ [_ [H _]]]].
  exact H.
Defined.
